(** * Plain-text fabric bitstream writer (OpenFPGA)

    Shallow embedding of
    [openfpga/src/fpga_bitstream/write_text_fabric_bitstream.cpp].

    The C++ code writes into a [std::fstream] and logs through the VTR
    logger.  Both are threaded here as an explicit state; the writer
    functions are computations in a small state monad whose results can also
    be a process exit ([check_file_stream]) or an undefined access
    (unchecked [operator[]] on a vector). *)

From Stdlib Require Import String Ascii List ZArith Bool Arith Lia.
Import ListNotations.
Local Open Scope list_scope.

(** ** Text *)

(** File contents and address codes are sequences of characters. *)
Definition text := list ascii.

Definition LF : ascii := "010"%char.
Definition SP : ascii := " "%char.

(** [fp << b] for a [bool] without [boolalpha]: the digit 0 or 1. *)
Definition digit (b : bool) : ascii := if b then "1"%char else "0"%char.

Definition chars (s : string) : text := list_ascii_of_string s.

Definition text_eq_dec : forall a b : text, {a = b} + {a <> b} :=
  list_eq_dec ascii_dec.

(** ** The output stream

    [good] holds when the stream is open and no error bit is set.  [room] is
    the number of characters the device will still accept: a write beyond it
    fails and leaves the stream in error, after which insertions are
    dropped.  The failure is recorded at the character that does not fit; a
    buffered [std::fstream] records it no earlier, at the flush that carries
    that character.  [written] is what reaches the device. *)
Record fstream := mkStream {
  good : bool;
  room : nat;
  written : text
}.

Definition put_char (c : ascii) (f : fstream) : fstream :=
  if good f then
    match room f with
    | O => mkStream false O (written f)
    | S r => mkStream true r (written f ++ [c])
    end
  else f.

Definition put_text (t : text) (f : fstream) : fstream :=
  fold_left (fun f c => put_char c f) t f.

(** ** Destinations

    What [fp.open(fname, out | trunc)] finds: whether the name can be
    opened for writing, and how much the device behind it accepts. *)
Record FileSystem := mkFS {
  openable : string -> bool;
  capacity : string -> nat
}.

Definition fstream_open (fs : FileSystem) (fname : string) : fstream :=
  mkStream (openable fs fname) (capacity fs fname) [].

(** ** Log

    [LogTimer] and [LogTimerFinish] are the two messages of the
    [ScopedStartFinishTimer], printed where it is declared and where it goes
    out of scope; the elapsed time of the second is left out. *)
Inductive log_entry :=
| LogError (msg : string)
| LogTimer (num_bits : nat) (fname : string)
| LogTimerFinish (num_bits : nat) (fname : string)
| LogVerbose (num_bits : nat) (fname : string).

Definition HT : ascii := "009"%char.

Definition msg_empty_file_name : string :=
  ("Received empty file name to output bitstream!" ++
   String LF (String HT "Please specify a valid file name.") ++
   String LF EmptyString)%string.
Definition msg_invalid_protocol : string :=
  ("Invalid configuration protocol type!" ++ String LF EmptyString)%string.
Definition msg_invalid_file_path : string :=
  "Invalid file path"%string.

(** ** State and computations *)
Record state := mkState {
  fp : fstream;
  log : list log_entry
}.

Inductive result (A : Type) :=
| Done (a : A) (s : state)   (* normal completion *)
| Exit (s : state)           (* the process is terminated *)
| Fault.                     (* undefined behaviour *)
Arguments Done {A} a s.
Arguments Exit {A} s.
Arguments Fault {A}.

Definition M (A : Type) := state -> result A.

Definition ret {A} (a : A) : M A := fun s => Done a s.

Definition bind {A B} (c : M A) (k : A -> M B) : M B :=
  fun s => match c s with
           | Done a s' => k a s'
           | Exit s' => Exit s'
           | Fault => Fault
           end.

Notation "x <- c ;; k" := (bind c (fun x => k))
  (at level 61, c at next level, right associativity).
Notation "c ;; k" := (bind c (fun _ => k))
  (at level 61, right associativity).

Definition fault {A} : M A := fun _ => Fault.
Definition exit {A} : M A := fun s => Exit s.

Definition emit (t : text) (s : state) : state :=
  mkState (put_text t (fp s)) (log s).

(** [fp << ...] *)
Definition out (t : text) : M unit := fun s => Done tt (emit t s).

(** [fp << std::endl] *)
Definition endl : M unit := out [LF].

Definition log_msg (e : log_entry) : M unit :=
  fun s => Done tt (mkState (fp s) (log s ++ [e])).

(** Range-based [for] without early exit. *)
Fixpoint for_each {A} (l : list A) (body : A -> M unit) : M unit :=
  match l with
  | [] => ret tt
  | x :: rest => body x ;; for_each rest body
  end.

(** ** Bitstream databases *)
Definition ConfigBitId := nat.
Definition FabricBitId := nat.
Definition FabricBitRegionId := nat.

Record BitstreamManager := mkBM {
  bit_value : ConfigBitId -> bool
}.

(** The accessors of [FabricBitstream] the writer and its helpers call.
    [bit_din] is the value the address-keyed builders read: they receive the
    fabric bitstream only, not the bitstream manager. *)
Record FabricBitstream := mkFB {
  bits : list FabricBitId;
  config_bit : FabricBitId -> ConfigBitId;
  bit_address : FabricBitId -> text;
  bit_bl_address : FabricBitId -> text;
  bit_wl_address : FabricBitId -> text;
  bit_din : FabricBitId -> bool;
  regions : list FabricBitRegionId;
  region_bits : FabricBitRegionId -> list FabricBitId
}.

Definition num_bits (fb : FabricBitstream) : nat := length (bits fb).

(** The four enumerators the code names; [CONFIG_MEM_UNRECOGNIZED] stands for
    any other value of the enumeration, which the [switch] statements send to
    [default:]. *)
Inductive e_config_protocol_type :=
| CONFIG_MEM_STANDALONE
| CONFIG_MEM_SCAN_CHAIN
| CONFIG_MEM_MEMORY_BANK
| CONFIG_MEM_FRAME_BASED
| CONFIG_MEM_UNRECOGNIZED.

Record ConfigProtocol := mkCP {
  type : e_config_protocol_type
}.

(** Containers the helpers return, as the sequences the writer iterates. *)
Definition ConfigChainFabricBitstream := list (list bool).
Definition MemoryBankFabricBitstream := list ((text * text) * list bool).
Definition FrameFabricBitstream := list (text * list bool).

(** ** Helpers declared outside this file

    [fabric_bitstream_utils.h]: the writer only calls them, so it is
    parametric in what they return. *)
Class FabricBitstreamUtils := {
  find_fabric_regional_bitstream_max_size : FabricBitstream -> nat;
  build_config_chain_fabric_bitstream_by_region :
    BitstreamManager -> FabricBitstream -> ConfigChainFabricBitstream;
  build_memory_bank_fabric_bitstream_by_address :
    FabricBitstream -> MemoryBankFabricBitstream;
  build_frame_based_fabric_bitstream_by_address :
    FabricBitstream -> FrameFabricBitstream
}.

(** Modelled from the spec: [valid_file_stream] (openfpga_digest.h) is
    missing; the spec calls it a stream validity check. *)
Definition valid_file_stream : M bool := fun s => Done (good (fp s)) s.

(** Modelled from the spec: [check_file_stream] (openfpga_digest.h) is
    missing; the spec has a destination that cannot be opened abort the call
    with nothing written. *)
Definition check_file_stream (fname : string) : M unit :=
  ok <- valid_file_stream ;;
  if ok then ret tt
  else log_msg (LogError msg_invalid_file_path) ;; exit.

(** Modelled from the spec: [write_space_to_file] (openfpga_digest.h) is
    missing; the spec calls it a space writer. *)
Definition write_space_to_file (n : nat) : M unit := out (repeat SP n).

Definition string_empty (s : string) : bool :=
  match s with EmptyString => true | String _ _ => false end.

(** [fp.open(fname, std::fstream::out | std::fstream::trunc)] *)
Definition fopen (fs : FileSystem) (fname : string) : M unit :=
  fun s => Done tt (mkState (fstream_open fs fname) (log s)).

(** [fp.close()] *)
Definition fclose : M unit :=
  fun s => Done tt (mkState (mkStream false 0 (written (fp s))) (log s)).

(** What a call leaves behind: the status it returned, the characters that
    reached the destination and the messages logged; or the process was
    terminated; or the behaviour is undefined. *)
Inductive outcome :=
| Returned (status : Z) (file : text) (messages : list log_entry)
| Aborted (messages : list log_entry)
| Undefined.

(** A call starts with a stream not yet opened and an empty log. *)
Definition call (c : M Z) : outcome :=
  match c (mkState (mkStream false 0 []) []) with
  | Done status s => Returned status (written (fp s)) (log s)
  | Exit s => Aborted (log s)
  | Fault => Undefined
  end.

(** ** The writer *)
Section Writer.
Context {U : FabricBitstreamUtils}.

Definition write_fabric_config_bit_to_text_file
    (bitstream_manager : BitstreamManager) (fabric_bitstream : FabricBitstream)
    (fabric_bit : FabricBitId) (config_type : e_config_protocol_type) : M Z :=
  ok <- valid_file_stream ;;
  if negb ok then ret 1%Z
  else
    match config_type with
    | CONFIG_MEM_STANDALONE
    | CONFIG_MEM_SCAN_CHAIN =>
        out [digit (bit_value bitstream_manager
                      (config_bit fabric_bitstream fabric_bit))] ;;
        ret 0%Z
    | CONFIG_MEM_MEMORY_BANK =>
        for_each (bit_bl_address fabric_bitstream fabric_bit)
                 (fun addr_bit => out [addr_bit]) ;;
        write_space_to_file 1 ;;
        for_each (bit_wl_address fabric_bitstream fabric_bit)
                 (fun addr_bit => out [addr_bit]) ;;
        write_space_to_file 1 ;;
        out [digit (bit_value bitstream_manager
                      (config_bit fabric_bitstream fabric_bit))] ;;
        out [LF] ;;
        ret 0%Z
    | CONFIG_MEM_FRAME_BASED =>
        for_each (bit_address fabric_bitstream fabric_bit)
                 (fun addr_bit => out [addr_bit]) ;;
        write_space_to_file 1 ;;
        out [digit (bit_value bitstream_manager
                      (config_bit fabric_bitstream fabric_bit))] ;;
        out [LF] ;;
        ret 0%Z
    | CONFIG_MEM_UNRECOGNIZED =>
        log_msg (LogError msg_invalid_protocol) ;;
        ret 1%Z
    end.

(** The loop of [write_flatten_fabric_bitstream_to_text_file]; [status] is
    the value of the local variable when the remaining bits are visited. *)
Fixpoint flatten_loop (bitstream_manager : BitstreamManager)
    (fabric_bitstream : FabricBitstream) (config_protocol : ConfigProtocol)
    (todo : list FabricBitId) (status : Z) : M Z :=
  match todo with
  | [] => ret status
  | fabric_bit :: rest =>
      status' <- write_fabric_config_bit_to_text_file bitstream_manager
                   fabric_bitstream fabric_bit (type config_protocol) ;;
      if (1 =? status')%Z then ret status'
      else flatten_loop bitstream_manager fabric_bitstream config_protocol
             rest status'
  end.

Definition write_flatten_fabric_bitstream_to_text_file
    (bitstream_manager : BitstreamManager) (fabric_bitstream : FabricBitstream)
    (config_protocol : ConfigProtocol) : M Z :=
  flatten_loop bitstream_manager fabric_bitstream config_protocol
    (bits fabric_bitstream) 0%Z.

(** [region_bitstream[ibit]] is not range-checked. *)
Definition write_region_bit (ibit : nat) (region_bitstream : list bool)
    : M unit :=
  match nth_error region_bitstream ibit with
  | Some b => out [digit b]
  | None => fault
  end.

Definition write_config_chain_fabric_bitstream_to_text_file
    (bitstream_manager : BitstreamManager) (fabric_bitstream : FabricBitstream)
    : M Z :=
  let status := 0%Z in
  let regional_bitstream_max_size :=
    find_fabric_regional_bitstream_max_size fabric_bitstream in
  let regional_bitstreams :=
    build_config_chain_fabric_bitstream_by_region bitstream_manager
      fabric_bitstream in
  for_each (seq 0 regional_bitstream_max_size)
    (fun ibit =>
       for_each regional_bitstreams (write_region_bit ibit) ;;
       endl) ;;
  ret status.

Definition write_memory_bank_fabric_bitstream_to_text_file
    (fabric_bitstream : FabricBitstream) : M Z :=
  let status := 0%Z in
  let fabric_bits_by_addr :=
    build_memory_bank_fabric_bitstream_by_address fabric_bitstream in
  for_each fabric_bits_by_addr
    (fun addr_din_pair =>
       out (fst (fst addr_din_pair)) ;;
       out [SP] ;;
       out (snd (fst addr_din_pair)) ;;
       out [SP] ;;
       for_each (snd addr_din_pair) (fun din_value => out [digit din_value]) ;;
       endl) ;;
  ret status.

Definition write_frame_based_fabric_bitstream_to_text_file
    (fabric_bitstream : FabricBitstream) : M Z :=
  let status := 0%Z in
  let fabric_bits_by_addr :=
    build_frame_based_fabric_bitstream_by_address fabric_bitstream in
  for_each fabric_bits_by_addr
    (fun addr_din_pair =>
       out (fst addr_din_pair) ;;
       out [SP] ;;
       for_each (snd addr_din_pair) (fun din_value => out [digit din_value]) ;;
       endl) ;;
  ret status.

(** The [switch] of [write_fabric_bitstream_to_text_file]. *)
Definition route (bitstream_manager : BitstreamManager)
    (fabric_bitstream : FabricBitstream) (config_protocol : ConfigProtocol)
    : M Z :=
  match type config_protocol with
  | CONFIG_MEM_STANDALONE =>
      write_flatten_fabric_bitstream_to_text_file bitstream_manager
        fabric_bitstream config_protocol
  | CONFIG_MEM_SCAN_CHAIN =>
      write_config_chain_fabric_bitstream_to_text_file bitstream_manager
        fabric_bitstream
  | CONFIG_MEM_MEMORY_BANK =>
      write_memory_bank_fabric_bitstream_to_text_file fabric_bitstream
  | CONFIG_MEM_FRAME_BASED =>
      write_frame_based_fabric_bitstream_to_text_file fabric_bitstream
  | CONFIG_MEM_UNRECOGNIZED =>
      log_msg (LogError msg_invalid_protocol) ;;
      ret 1%Z
  end.

(** The body of [write_fabric_bitstream_to_text_file]; [fp] is its local
    stream, opened on [fname]. *)
Definition write_fabric_bitstream_to_text_file (fs : FileSystem)
    (bitstream_manager : BitstreamManager) (fabric_bitstream : FabricBitstream)
    (config_protocol : ConfigProtocol) (fname : string) (verbose : bool)
    : M Z :=
  (if string_empty fname then log_msg (LogError msg_empty_file_name)
   else ret tt) ;;
  log_msg (LogTimer (num_bits fabric_bitstream) fname) ;;
  fopen fs fname ;;
  check_file_stream fname ;;
  status <- route bitstream_manager fabric_bitstream config_protocol ;;
  endl ;;
  fclose ;;
  (if verbose
   then log_msg (LogVerbose (length (bits fabric_bitstream)) fname)
   else ret tt) ;;
  log_msg (LogTimerFinish (num_bits fabric_bitstream) fname) ;;
  ret status.

End Writer.

(** ** The helpers as the specification describes them *)

(** Modelled from the spec: [find_fabric_regional_bitstream_max_size]
    (fabric_bitstream_utils) is missing; the spec has it give the length of
    the longest region. *)
Definition spec_find_fabric_regional_bitstream_max_size
    (fabric_bitstream : FabricBitstream) : nat :=
  list_max (map (fun region => length (region_bits fabric_bitstream region))
                (regions fabric_bitstream)).

(** Modelled from the spec: [build_config_chain_fabric_bitstream_by_region]
    (fabric_bitstream_utils) is missing; the spec has every region hold the
    values of its bits in order, padded at the tail with 0 up to the length
    of the longest region. *)
Definition spec_build_config_chain_fabric_bitstream_by_region
    (bitstream_manager : BitstreamManager) (fabric_bitstream : FabricBitstream)
    : ConfigChainFabricBitstream :=
  map (fun region =>
         let values :=
           map (fun bit => bit_value bitstream_manager
                             (config_bit fabric_bitstream bit))
               (region_bits fabric_bitstream region) in
         values ++
         repeat false
           (spec_find_fabric_regional_bitstream_max_size fabric_bitstream
            - length values))
      (regions fabric_bitstream).

Section AddressKeyed.
Context {K : Type} (K_eq_dec : forall a b : K, {a = b} + {a <> b}).

(** Append a value to the data vector of its address, creating the group at
    the end on first encounter. *)
Fixpoint add_din (addr : K) (din : bool) (groups : list (K * list bool))
    : list (K * list bool) :=
  match groups with
  | [] => [(addr, [din])]
  | (a, d) :: rest =>
      if K_eq_dec addr a then (a, d ++ [din]) :: rest
      else (a, d) :: add_din addr din rest
  end.

(** One pass over the bits in source order. *)
Definition group_by_address (addr_of : FabricBitId -> K)
    (din_of : FabricBitId -> bool) (bs : list FabricBitId)
    : list (K * list bool) :=
  fold_left (fun groups bit => add_din (addr_of bit) (din_of bit) groups)
            bs [].

(** The distinct addresses of a sequence, in order of first occurrence. *)
Fixpoint distinct (l : list K) : list K :=
  match l with
  | [] => []
  | a :: rest => a :: remove K_eq_dec a (distinct rest)
  end.

(** The values of the bits at one address, in source order. *)
Definition din_at (addr_of : FabricBitId -> K) (din_of : FabricBitId -> bool)
    (bs : list FabricBitId) (addr : K) : list bool :=
  map din_of
      (filter (fun bit => if K_eq_dec (addr_of bit) addr then true else false)
              bs).

End AddressKeyed.

Definition addr_pair_eq_dec :
  forall a b : text * text, {a = b} + {a <> b}.
Proof. decide equality; apply text_eq_dec. Defined.

(** The two-part key of a bit: BL address, then WL address. *)
Definition bank_address (fabric_bitstream : FabricBitstream)
    (bit : FabricBitId) : text * text :=
  (bit_bl_address fabric_bitstream bit, bit_wl_address fabric_bitstream bit).

(** Modelled from the spec: [build_memory_bank_fabric_bitstream_by_address]
    (fabric_bitstream_utils) is missing; the spec has it scan the bits in
    order and append each value to the group of its (BL, WL) pair, groups
    kept in the order first encountered. *)
Definition spec_build_memory_bank_fabric_bitstream_by_address
    (fabric_bitstream : FabricBitstream) : MemoryBankFabricBitstream :=
  group_by_address addr_pair_eq_dec (bank_address fabric_bitstream)
    (bit_din fabric_bitstream) (bits fabric_bitstream).

(** Modelled from the spec: [build_frame_based_fabric_bitstream_by_address]
    (fabric_bitstream_utils) is missing; as above with the single frame
    address as key. *)
Definition spec_build_frame_based_fabric_bitstream_by_address
    (fabric_bitstream : FabricBitstream) : FrameFabricBitstream :=
  group_by_address text_eq_dec (bit_address fabric_bitstream)
    (bit_din fabric_bitstream) (bits fabric_bitstream).

Definition spec_utils : FabricBitstreamUtils := {|
  find_fabric_regional_bitstream_max_size :=
    spec_find_fabric_regional_bitstream_max_size;
  build_config_chain_fabric_bitstream_by_region :=
    spec_build_config_chain_fabric_bitstream_by_region;
  build_memory_bank_fabric_bitstream_by_address :=
    spec_build_memory_bank_fabric_bitstream_by_address;
  build_frame_based_fabric_bitstream_by_address :=
    spec_build_frame_based_fabric_bitstream_by_address
|}.

(** ** Vocabulary of the statements *)

(** A computation that only writes [t]. *)
Definition emits (c : M unit) (t : text) : Prop :=
  forall s, c s = Done tt (emit t s).


(** A computation that writes [t] and returns [a]. *)
Definition yields {A} (c : M A) (t : text) (a : A) : Prop :=
  forall s, c s = Done a (emit t s).


(** The text of each format. *)
Definition unlines (ls : list text) : text :=
  concat (map (fun l => l ++ [LF]) ls).

(** Column [ibit] of the regional bitstreams. *)
Definition chain_column (regional_bitstreams : ConfigChainFabricBitstream)
    (ibit : nat) : text :=
  map (fun region_bitstream => digit (nth ibit region_bitstream false))
      regional_bitstreams.

Definition memory_bank_line (g : (text * text) * list bool) : text :=
  fst (fst g) ++ [SP] ++ snd (fst g) ++ [SP] ++ map digit (snd g).

Definition frame_line (g : text * list bool) : text :=
  fst g ++ [SP] ++ map digit (snd g).

Section Formats.
Context {U : FabricBitstreamUtils}.

Definition flatten_text (bm : BitstreamManager) (fb : FabricBitstream) : text :=
  map (fun bit => digit (bit_value bm (config_bit fb bit))) (bits fb).

Definition chain_lines (bm : BitstreamManager) (fb : FabricBitstream)
    : list text :=
  map (chain_column (build_config_chain_fabric_bitstream_by_region bm fb))
      (seq 0 (find_fabric_regional_bitstream_max_size fb)).

Definition memory_bank_lines (fb : FabricBitstream) : list text :=
  map memory_bank_line (build_memory_bank_fabric_bitstream_by_address fb).

Definition frame_lines (fb : FabricBitstream) : list text :=
  map frame_line (build_frame_based_fabric_bitstream_by_address fb).

(** What the format of each protocol kind puts before the final line
    terminator. *)
Definition structured_content (bm : BitstreamManager) (fb : FabricBitstream)
    (kind : e_config_protocol_type) : text :=
  match kind with
  | CONFIG_MEM_STANDALONE => flatten_text bm fb
  | CONFIG_MEM_SCAN_CHAIN => unlines (chain_lines bm fb)
  | CONFIG_MEM_MEMORY_BANK => unlines (memory_bank_lines fb)
  | CONFIG_MEM_FRAME_BASED => unlines (frame_lines fb)
  | CONFIG_MEM_UNRECOGNIZED => []
  end.

(** The regional bitstreams all have the length the size helper reports,
    which is that of the longest. *)
Definition regions_aligned (bm : BitstreamManager) (fb : FabricBitstream)
    : Prop :=
  find_fabric_regional_bitstream_max_size fb =
  list_max (map (@length bool)
                (build_config_chain_fabric_bitstream_by_region bm fb)) /\
  Forall (fun region_bitstream =>
            length region_bitstream =
            find_fabric_regional_bitstream_max_size fb)
         (build_config_chain_fabric_bitstream_by_region bm fb).

End Formats.

(** The status and the message of the router. *)
Definition route_status (kind : e_config_protocol_type) : Z :=
  match kind with CONFIG_MEM_UNRECOGNIZED => 1%Z | _ => 0%Z end.

Definition route_messages (kind : e_config_protocol_type) : list log_entry :=
  match kind with
  | CONFIG_MEM_UNRECOGNIZED => [LogError msg_invalid_protocol]
  | _ => []
  end.

Definition status_of (o : outcome) : option Z :=
  match o with Returned status _ _ => Some status | _ => None end.

Definition file_of (o : outcome) : option text :=
  match o with Returned _ file _ => Some file | _ => None end.

Definition messages_of (o : outcome) : list log_entry :=
  match o with
  | Returned _ _ messages => messages
  | Aborted messages => messages
  | Undefined => []
  end.

(** Messages logged before the stream is checked. *)
Definition opening_messages (fb : FabricBitstream) (fname : string)
    : list log_entry :=
  (if string_empty fname then [LogError msg_empty_file_name] else []) ++
  [LogTimer (num_bits fb) fname].

Definition closing_messages (fb : FabricBitstream) (fname : string)
    (verbose : bool) : list log_entry :=
  (if verbose then [LogVerbose (length (bits fb)) fname] else []) ++
  [LogTimerFinish (num_bits fb) fname].

(** Two results agree on the value and the stream. *)
Definition sim {A} (r1 r2 : result A) : Prop :=
  match r1, r2 with
  | Done a s1, Done b s2 => a = b /\ fp s1 = fp s2
  | Exit s1, Exit s2 => fp s1 = fp s2
  | Fault, Fault => True
  | _, _ => False
  end.

Definition stream_only {A} (c : M A) : Prop :=
  forall s1 s2, fp s1 = fp s2 -> sim (c s1) (c s2).

(** The log of a computation extends the log it started with. *)
Definition log_grows {A} (c : M A) : Prop :=
  forall s,
    match c s with
    | Done _ s' | Exit s' => exists extra, log s' = log s ++ extra
    | Fault => True
    end.


(** ** Sample inputs (section 8 of the specification) *)
Module Samples.

Definition roomy : FileSystem := mkFS (fun _ => true) (fun _ => 1000).

(* bit ids double as config bit ids; odd ids carry 1 *)
Definition bm : BitstreamManager := mkBM Nat.odd.

Definition fb_of (bs : list FabricBitId) : FabricBitstream :=
  mkFB bs (fun b => b) (fun _ => []) (fun _ => []) (fun _ => [])
       (fun _ => false) [] (fun _ => []).

(* bits 1,0,1,1 *)
Definition standalone_fb : FabricBitstream := fb_of [1; 2; 3; 5].

(* region 0 = [1,0,1], region 1 = [0,1] *)
Definition chain_fb : FabricBitstream :=
  mkFB [1; 2; 3; 4; 5] (fun b => b) (fun _ => []) (fun _ => []) (fun _ => [])
       (fun _ => false) [0; 1]
       (fun r => match r with 0 => [1; 2; 3] | 1 => [4; 5] | _ => [] end).

(* two bits at BL=01, WL=10 with values 1 then 0 *)
Definition bank_fb : FabricBitstream :=
  mkFB [1; 2] (fun b => b) (fun _ => [])
       (fun _ => chars "01") (fun _ => chars "10") Nat.odd [] (fun _ => []).

(* one bit at address 101 with value 1 *)
Definition frame_fb : FabricBitstream :=
  mkFB [1] (fun b => b) (fun _ => chars "101") (fun _ => []) (fun _ => [])
       Nat.odd [] (fun _ => []).

(* a stream that is open and takes 1000 characters, and one in error *)
Definition fresh : state := mkState (mkStream true 1000 []) [].


(* the two bits of [bank_fb] stored the other way round *)
Definition bank_fb_swapped : FabricBitstream :=
  mkFB [2; 1] (fun b => b) (fun _ => [])
       (fun _ => chars "01") (fun _ => chars "10") Nat.odd [] (fun _ => []).

(* three bits at frame addresses 10, 01, 10 (BL the same, WL 1) with values
   1, 0, 1: the first address seen is not the smallest *)
Definition unsorted_fb : FabricBitstream :=
  mkFB [1; 2; 3] (fun b => b)
       (fun b => if Nat.odd b then chars "10" else chars "01")
       (fun b => if Nat.odd b then chars "10" else chars "01")
       (fun _ => chars "1") Nat.odd [] (fun _ => []).

End Samples.

(** ** Vocabulary of the further properties *)

(** A computation whose behaviour is undefined from every state. *)
Definition faults {A} (c : M A) : Prop := forall s, c s = Fault.

(** A computation that never terminates the process. *)
Definition no_exit {A} (c : M A) : Prop :=
  forall s, match c s with Exit _ => False | _ => True end.

Section RangeAndStatus.
Context {U : FabricBitstreamUtils}.

(** Every regional bitstream reaches the size the size helper reports. *)
Definition regions_in_range (bm : BitstreamManager) (fb : FabricBitstream)
    : Prop :=
  Forall (fun region_bitstream =>
            find_fabric_regional_bitstream_max_size fb <=
            length region_bitstream)
         (build_config_chain_fabric_bitstream_by_region bm fb).

End RangeAndStatus.

(** The status of the router on a valid stream that accepts [room] more
    characters, for [nbits] bits. *)
Definition status_with_room (kind : e_config_protocol_type)
    (room nbits : nat) : Z :=
  match kind with
  | CONFIG_MEM_STANDALONE => if nbits <=? S room then 0%Z else 1%Z
  | CONFIG_MEM_UNRECOGNIZED => 1%Z
  | _ => 0%Z
  end.

Module Edge.


(* a device that takes three characters *)
Definition small : FileSystem := mkFS (fun _ => true) (fun _ => 3).

(* a file system as they are: every name opens but the empty one *)
Definition named_only : FileSystem :=
  mkFS (fun fname => negb (string_empty fname)) (fun _ => 1000).

(* one bit with BL 01, WL 10, frame address 101 and value 1 *)
Definition addressed_fb : FabricBitstream :=
  mkFB [1] (fun b => b) (fun _ => chars "101")
       (fun _ => chars "01") (fun _ => chars "10") Nat.odd [] (fun _ => []).

(* helpers that report the longest region but leave the regions unpadded *)
Definition unpadded_utils : FabricBitstreamUtils := {|
  find_fabric_regional_bitstream_max_size :=
    spec_find_fabric_regional_bitstream_max_size;
  build_config_chain_fabric_bitstream_by_region :=
    fun bitstream_manager fabric_bitstream =>
      map (fun region =>
             map (fun bit => bit_value bitstream_manager
                               (config_bit fabric_bitstream bit))
                 (region_bits fabric_bitstream region))
          (regions fabric_bitstream);
  build_memory_bank_fabric_bitstream_by_address :=
    spec_build_memory_bank_fabric_bitstream_by_address;
  build_frame_based_fabric_bitstream_by_address :=
    spec_build_frame_based_fabric_bitstream_by_address
|}.

End Edge.

(** * Properties *)

(** ** The stream *)

Lemma put_text_app (a b : text) (f : fstream) :
  put_text (a ++ b) f = put_text b (put_text a f).
Proof. unfold put_text. apply fold_left_app. Qed.

Lemma put_text_bad (t : text) (f : fstream) :
  good f = false -> put_text t f = f.
Proof.
  induction t as [|c t IH]; intros Hbad; [reflexivity|].
  change (put_text (c :: t) f) with (put_text t (put_char c f)).
  unfold put_char. rewrite Hbad. apply IH, Hbad.
Qed.

Lemma put_text_good (t : text) : forall f : fstream,
  good f = true ->
  put_text t f =
  mkStream (length t <=? room f) (room f - length t)
           (written f ++ firstn (room f) t).
Proof.
  induction t as [|c t IH]; intros [g r w] Hg; cbn in Hg; subst g.
  - cbn. now rewrite Nat.sub_0_r, firstn_nil, app_nil_r.
  - destruct r as [|r].
    + change (put_text (c :: t) (mkStream true 0 w))
        with (put_text t (mkStream false 0 w)).
      rewrite put_text_bad by reflexivity.
      cbn. now rewrite app_nil_r.
    + change (put_text (c :: t) (mkStream true (S r) w))
        with (put_text t (mkStream true r (w ++ [c]))).
      rewrite IH by reflexivity. cbn.
      now rewrite <- app_assoc.
Qed.

Lemma put_text_fits (t : text) (f : fstream) :
  good f = true -> length t <= room f ->
  put_text t f = mkStream true (room f - length t) (written f ++ t).
Proof.
  intros Hg Hr. rewrite put_text_good by assumption.
  rewrite firstn_all2 by assumption.
  now replace (length t <=? room f) with true
    by (symmetry; apply Nat.leb_le; assumption).
Qed.

Lemma emit_app (a b : text) (s : state) :
  emit (a ++ b) s = emit b (emit a s).
Proof. unfold emit. cbn. now rewrite put_text_app. Qed.

Lemma emit_nil (s : state) : emit [] s = s.
Proof. now destruct s. Qed.

Lemma emit_fits (t : text) (s : state) :
  good (fp s) = true -> length t <= room (fp s) ->
  good (fp (emit t s)) = true /\
  room (fp (emit t s)) = room (fp s) - length t /\
  written (fp (emit t s)) = written (fp s) ++ t /\
  log (emit t s) = log s.
Proof.
  intros Hg Hr. unfold emit. cbn.
  rewrite put_text_fits by assumption. cbn. auto.
Qed.

(** ** Computations that only write *)

Lemma emits_ret : emits (ret tt) [].
Proof. intros s. unfold ret. now rewrite emit_nil. Qed.

Lemma emits_out (t : text) : emits (out t) t.
Proof. intros s. reflexivity. Qed.

Lemma emits_bind (c1 c2 : M unit) (t1 t2 : text) :
  emits c1 t1 -> emits c2 t2 -> emits (c1 ;; c2) (t1 ++ t2).
Proof.
  intros H1 H2 s. unfold bind. rewrite H1, H2. now rewrite emit_app.
Qed.

Lemma emits_for_each {A} (body : A -> M unit) (f : A -> text) (l : list A) :
  (forall x, In x l -> emits (body x) (f x)) ->
  emits (for_each l body) (concat (map f l)).
Proof.
  induction l as [|x l IH]; intros Hb; cbn.
  - apply emits_ret.
  - apply emits_bind.
    + apply Hb. now left.
    + apply IH. intros y Hy. apply Hb. now right.
Qed.

Lemma emits_chars (t : text) :
  emits (for_each t (fun c => out [c])) t.
Proof.
  replace t with (concat (map (fun c => [c]) t)) at 2.
  - apply emits_for_each. intros c _. apply emits_out.
  - induction t as [|c t IH]; cbn; [reflexivity | now rewrite IH].
Qed.

Create HintDb emits.
Lemma emits_digits (l : list bool) :
  emits (for_each l (fun d => out [digit d])) (map digit l).
Proof.
  replace (map digit l) with (concat (map (fun d => [digit d]) l)).
  - apply emits_for_each. intros d _. apply emits_out.
  - induction l as [|d l IH]; cbn; [reflexivity | now rewrite IH].
Qed.

Lemma emits_eq (c : M unit) (t t' : text) : emits c t -> t = t' -> emits c t'.
Proof. now intros H <-. Qed.

Lemma emits_then_ret {A} (c : M unit) (t : text) (a : A) (s : state) :
  emits c t -> (c ;; ret a) s = Done a (emit t s).
Proof. intros H. unfold bind, ret. now rewrite H. Qed.

Lemma yields_ret {A} (a : A) : yields (ret a) [] a.
Proof. intros s. unfold ret. now rewrite emit_nil. Qed.

Lemma yields_bind {A} (c1 : M unit) (c2 : M A) (t1 t2 : text) (a : A) :
  emits c1 t1 -> yields c2 t2 a -> yields (c1 ;; c2) (t1 ++ t2) a.
Proof.
  intros H1 H2 s. unfold bind. rewrite H1, H2. now rewrite emit_app.
Qed.

#[local] Hint Resolve emits_ret emits_out emits_bind emits_chars
  emits_digits yields_ret yields_bind : emits.

(** ** What each encoder writes *)

Section Encoders.
Context {U : FabricBitstreamUtils}.

Lemma write_memory_bank_emits (fb : FabricBitstream) (s : state) :
  write_memory_bank_fabric_bitstream_to_text_file fb s =
  Done 0%Z (emit (unlines (memory_bank_lines fb)) s).
Proof.
  unfold write_memory_bank_fabric_bitstream_to_text_file.
  apply emits_then_ret.
  unfold unlines, memory_bank_lines. rewrite map_map.
  apply emits_for_each. intros g _.
  eapply emits_eq.
  - unfold endl. eauto 10 with emits.
  - unfold memory_bank_line. now rewrite <- !app_assoc.
Qed.

Lemma write_frame_based_emits (fb : FabricBitstream) (s : state) :
  write_frame_based_fabric_bitstream_to_text_file fb s =
  Done 0%Z (emit (unlines (frame_lines fb)) s).
Proof.
  unfold write_frame_based_fabric_bitstream_to_text_file.
  apply emits_then_ret.
  unfold unlines, frame_lines. rewrite map_map.
  apply emits_for_each. intros g _.
  eapply emits_eq.
  - unfold endl. eauto 10 with emits.
  - unfold frame_line. now rewrite <- !app_assoc.
Qed.

Lemma write_region_bit_emits (ibit : nat) (region_bitstream : list bool) :
  ibit < length region_bitstream ->
  emits (write_region_bit ibit region_bitstream)
        [digit (nth ibit region_bitstream false)].
Proof.
  intros Hlt. unfold write_region_bit.
  rewrite (nth_error_nth' _ false Hlt). apply emits_out.
Qed.

Lemma write_column_emits (regs : ConfigChainFabricBitstream) (ibit : nat) :
  Forall (fun r => ibit < length r) regs ->
  emits (for_each regs (write_region_bit ibit)) (chain_column regs ibit).
Proof.
  intros Hall. unfold chain_column.
  replace (map (fun r => digit (nth ibit r false)) regs)
    with (concat (map (fun r => [digit (nth ibit r false)]) regs)).
  - apply emits_for_each. intros r Hr.
    apply write_region_bit_emits.
    rewrite Forall_forall in Hall. now apply Hall.
  - clear Hall. induction regs as [|r regs IH]; cbn;
      [reflexivity | now rewrite IH].
Qed.

Lemma write_config_chain_emits (bm : BitstreamManager) (fb : FabricBitstream)
    (s : state) :
  regions_aligned bm fb ->
  write_config_chain_fabric_bitstream_to_text_file bm fb s =
  Done 0%Z (emit (unlines (chain_lines bm fb)) s).
Proof.
  intros [_ Hall].
  unfold write_config_chain_fabric_bitstream_to_text_file.
  apply emits_then_ret.
  unfold unlines, chain_lines. rewrite map_map.
  apply emits_for_each. intros ibit Hin.
  apply in_seq in Hin.
  apply emits_bind; [|apply emits_out].
  apply write_column_emits.
  eapply Forall_impl; [|exact Hall].
  cbn. intros r Hr. lia.
Qed.

Lemma write_bit_good (bm : BitstreamManager) (fb : FabricBitstream)
    (bit : FabricBitId) (s : state) :
  good (fp s) = true ->
  write_fabric_config_bit_to_text_file bm fb bit CONFIG_MEM_STANDALONE s =
  Done 0%Z (emit [digit (bit_value bm (config_bit fb bit))] s).
Proof.
  intros Hg. unfold write_fabric_config_bit_to_text_file, bind,
    valid_file_stream. now rewrite Hg.
Qed.

Lemma write_bit_bad (bm : BitstreamManager) (fb : FabricBitstream)
    (bit : FabricBitId) (kind : e_config_protocol_type) (s : state) :
  good (fp s) = false ->
  write_fabric_config_bit_to_text_file bm fb bit kind s = Done 1%Z s.
Proof.
  intros Hg. unfold write_fabric_config_bit_to_text_file, bind,
    valid_file_stream. now rewrite Hg.
Qed.

Lemma flatten_loop_fits (bm : BitstreamManager) (fb : FabricBitstream)
    (cp : ConfigProtocol) (todo : list FabricBitId) :
  type cp = CONFIG_MEM_STANDALONE ->
  forall s, good (fp s) = true -> length todo <= room (fp s) ->
  flatten_loop bm fb cp todo 0%Z s =
  Done 0%Z
    (emit (map (fun bit => digit (bit_value bm (config_bit fb bit))) todo) s).
Proof.
  intros Hty.
  induction todo as [|bit todo IH]; intros s Hg Hr; cbn [flatten_loop map].
  - unfold ret. now rewrite emit_nil.
  - cbn [length] in Hr. unfold bind. rewrite Hty, write_bit_good by assumption.
    cbn [Z.eqb].
    destruct (emit_fits [digit (bit_value bm (config_bit fb bit))] s Hg)
      as (Hg' & Hr' & _); [cbn; lia|].
    rewrite IH; [| assumption | rewrite Hr'; cbn; lia].
    now rewrite <- emit_app.
Qed.

Lemma write_flatten_fits (bm : BitstreamManager) (fb : FabricBitstream)
    (cp : ConfigProtocol) (s : state) :
  type cp = CONFIG_MEM_STANDALONE ->
  good (fp s) = true -> length (bits fb) <= room (fp s) ->
  write_flatten_fabric_bitstream_to_text_file bm fb cp s =
  Done 0%Z (emit (flatten_text bm fb) s).
Proof.
  intros. unfold write_flatten_fabric_bitstream_to_text_file.
  now apply flatten_loop_fits.
Qed.


End Encoders.

(** ** The router and the whole call *)

Section Calls.
Context {U : FabricBitstreamUtils}.

Lemma route_fits (bm : BitstreamManager) (fb : FabricBitstream)
    (cp : ConfigProtocol) (s : state) :
  good (fp s) = true ->
  length (structured_content bm fb (type cp)) <= room (fp s) ->
  (type cp = CONFIG_MEM_SCAN_CHAIN -> regions_aligned bm fb) ->
  route bm fb cp s =
  Done (route_status (type cp))
       (mkState (put_text (structured_content bm fb (type cp)) (fp s))
                (log s ++ route_messages (type cp))).
Proof.
  intros Hg Hr Hal. unfold route.
  destruct (type cp) eqn:Hty; cbn [structured_content route_status
    route_messages] in *; rewrite ?app_nil_r.
  - rewrite write_flatten_fits; auto.
    unfold flatten_text in Hr. now rewrite length_map in Hr.
  - now rewrite write_config_chain_emits by auto.
  - now rewrite write_memory_bank_emits.
  - now rewrite write_frame_based_emits.
  - reflexivity.
Qed.

(** The call, unfolded up to the router. *)
Lemma call_unfold (fs : FileSystem) (bm : BitstreamManager)
    (fb : FabricBitstream) (cp : ConfigProtocol) (fname : string)
    (verbose : bool) :
  call (write_fabric_bitstream_to_text_file fs bm fb cp fname verbose) =
  if openable fs fname then
    match route bm fb cp
            (mkState (fstream_open fs fname) (opening_messages fb fname)) with
    | Done status s' =>
        Returned status (written (put_text [LF] (fp s')))
                 (log s' ++ closing_messages fb fname verbose)
    | Exit s' => Aborted (log s')
    | Fault => Undefined
    end
  else Aborted (opening_messages fb fname ++ [LogError msg_invalid_file_path]).
Proof.
  unfold call, write_fabric_bitstream_to_text_file, opening_messages,
    closing_messages, check_file_stream, valid_file_stream, fopen, fclose,
    endl, out, log_msg, exit, ret, bind, fstream_open.
  destruct (string_empty fname); cbn [fp log good app];
    destruct (openable fs fname); cbn [fp log good app]; try reflexivity;
    match goal with
    | |- context [route bm fb cp ?s] => destruct (route bm fb cp s)
    end; try reflexivity;
    destruct verbose; cbn [fp log written emit];
    rewrite ?app_nil_r, <- ?app_assoc; reflexivity.
Qed.

Lemma call_returns (fs : FileSystem) (bm : BitstreamManager)
    (fb : FabricBitstream) (cp : ConfigProtocol) (fname : string)
    (verbose : bool) :
  openable fs fname = true ->
  length (structured_content bm fb (type cp)) < capacity fs fname ->
  (type cp = CONFIG_MEM_SCAN_CHAIN -> regions_aligned bm fb) ->
  call (write_fabric_bitstream_to_text_file fs bm fb cp fname verbose) =
  Returned (route_status (type cp))
           (structured_content bm fb (type cp) ++ [LF])
           (opening_messages fb fname ++ route_messages (type cp) ++
            closing_messages fb fname verbose).
Proof.
  intros Hop Hcap Hal. rewrite call_unfold, Hop.
  assert (Hopen : fstream_open fs fname = mkStream true (capacity fs fname) [])
    by (unfold fstream_open; now rewrite Hop).
  rewrite route_fits; rewrite ?Hopen; cbn [fp log good room]; auto;
    [| lia].
  rewrite <- put_text_app, put_text_fits; cbn [good room written]; auto;
    [| rewrite length_app; cbn; lia].
  now rewrite <- app_assoc.
Qed.

Lemma call_aborts (fs : FileSystem) (bm : BitstreamManager)
    (fb : FabricBitstream) (cp : ConfigProtocol) (fname : string)
    (verbose : bool) :
  openable fs fname = false ->
  call (write_fabric_bitstream_to_text_file fs bm fb cp fname verbose) =
  Aborted (opening_messages fb fname ++ [LogError msg_invalid_file_path]).
Proof. intros Hop. now rewrite call_unfold, Hop. Qed.

End Calls.

(** ** The log never feeds back into the file *)

Lemma stream_only_ret {A} (a : A) : stream_only (ret a).
Proof. intros s1 s2 H. cbn. auto. Qed.

Lemma stream_only_bind {A B} (c : M A) (k : A -> M B) :
  stream_only c -> (forall a, stream_only (k a)) -> stream_only (bind c k).
Proof.
  intros Hc Hk s1 s2 H. unfold bind.
  specialize (Hc s1 s2 H).
  destruct (c s1), (c s2); cbn in Hc; try contradiction; auto.
  destruct Hc as [<- Hfp]. now apply Hk.
Qed.

Lemma stream_only_out (t : text) : stream_only (out t).
Proof. intros s1 s2 H. cbn. now rewrite H. Qed.

Lemma stream_only_log_msg (e : log_entry) : stream_only (log_msg e).
Proof. intros s1 s2 H. cbn. auto. Qed.

Lemma stream_only_valid : stream_only valid_file_stream.
Proof. intros s1 s2 H. cbn. now rewrite H. Qed.

Lemma stream_only_fault {A} : stream_only (@fault A).
Proof. intros s1 s2 H. exact I. Qed.

Lemma stream_only_for_each {A} (l : list A) (body : A -> M unit) :
  (forall x, stream_only (body x)) -> stream_only (for_each l body).
Proof.
  intros Hb. induction l as [|x l IH]; cbn.
  - apply stream_only_ret.
  - apply stream_only_bind; auto.
Qed.

Create HintDb stream_only.
#[local] Hint Resolve stream_only_ret stream_only_out stream_only_log_msg
  stream_only_valid stream_only_fault : stream_only.

Ltac stream_only_tac :=
  repeat first
    [ apply stream_only_bind; [| intros ?]
    | apply stream_only_for_each; intros ?
    | progress auto with stream_only ].

Section LogIrrelevant.
Context {U : FabricBitstreamUtils}.

Lemma stream_only_write_bit (bm : BitstreamManager) (fb : FabricBitstream)
    (bit : FabricBitId) (kind : e_config_protocol_type) :
  stream_only (write_fabric_config_bit_to_text_file bm fb bit kind).
Proof.
  unfold write_fabric_config_bit_to_text_file, write_space_to_file.
  apply stream_only_bind; [auto with stream_only|].
  intros ok. destruct (negb ok); [auto with stream_only|].
  destruct kind; stream_only_tac.
Qed.

Lemma stream_only_flatten_loop (bm : BitstreamManager) (fb : FabricBitstream)
    (cp : ConfigProtocol) (todo : list FabricBitId) :
  forall status, stream_only (flatten_loop bm fb cp todo status).
Proof.
  induction todo as [|bit todo IH]; intros status; cbn [flatten_loop].
  - apply stream_only_ret.
  - apply stream_only_bind; [apply stream_only_write_bit|].
    intros st. destruct (1 =? st)%Z; auto with stream_only.
Qed.

Lemma stream_only_route (bm : BitstreamManager) (fb : FabricBitstream)
    (cp : ConfigProtocol) :
  stream_only (route bm fb cp).
Proof.
  unfold route. destruct (type cp).
  - apply stream_only_flatten_loop.
  - unfold write_config_chain_fabric_bitstream_to_text_file, endl.
    stream_only_tac.
    unfold write_region_bit.
    match goal with |- context [nth_error ?l ?i] =>
      destruct (nth_error l i) end; auto with stream_only.
  - unfold write_memory_bank_fabric_bitstream_to_text_file, endl.
    stream_only_tac.
  - unfold write_frame_based_fabric_bitstream_to_text_file, endl.
    stream_only_tac.
  - stream_only_tac.
Qed.

(** Status and file of a call depend on the destination only through the
    stream that opening it yields; name and verbosity reach the log alone. *)
Lemma call_stream_only (fs1 fs2 : FileSystem) (bm : BitstreamManager)
    (fb : FabricBitstream) (cp : ConfigProtocol) (f1 f2 : string)
    (v1 v2 : bool) :
  openable fs1 f1 = openable fs2 f2 ->
  capacity fs1 f1 = capacity fs2 f2 ->
  status_of (call (write_fabric_bitstream_to_text_file fs1 bm fb cp f1 v1)) =
  status_of (call (write_fabric_bitstream_to_text_file fs2 bm fb cp f2 v2)) /\
  file_of (call (write_fabric_bitstream_to_text_file fs1 bm fb cp f1 v1)) =
  file_of (call (write_fabric_bitstream_to_text_file fs2 bm fb cp f2 v2)).
Proof.
  intros Hop Hcap. rewrite !call_unfold, <- Hop.
  destruct (openable fs1 f1) eqn:Ho; [|now split].
  assert (Hfp : fstream_open fs1 f1 = fstream_open fs2 f2)
    by (unfold fstream_open; congruence).
  pose proof (stream_only_route bm fb cp
    (mkState (fstream_open fs1 f1) (opening_messages fb f1))
    (mkState (fstream_open fs2 f2) (opening_messages fb f2)) Hfp) as Hsim.
  destruct (route bm fb cp (mkState (fstream_open fs1 f1) _)) as [a s| s |];
    destruct (route bm fb cp (mkState (fstream_open fs2 f2) _)) as [b t| t |];
    cbn in Hsim; try contradiction; try (now split).
  destruct Hsim as [<- ->]. now split.
Qed.

End LogIrrelevant.

(** ** The helpers of the specification *)

Lemma list_max_const (l : list nat) (m : nat) :
  l <> [] -> Forall (fun x => x = m) l -> list_max l = m.
Proof.
  induction l as [|x l IH]; intros Hne Hall; [congruence|].
  inversion Hall as [|? ? Hx Hl]; subst.
  destruct l as [|y l].
  - cbn. lia.
  - change (list_max (m :: y :: l)) with (Nat.max m (list_max (y :: l))).
    rewrite IH; [lia | congruence | assumption].
Qed.

Lemma spec_regions_aligned (bm : BitstreamManager) (fb : FabricBitstream) :
  @regions_aligned spec_utils bm fb.
Proof.
  assert (Hall : Forall (fun r => length r =
              spec_find_fabric_regional_bitstream_max_size fb)
            (spec_build_config_chain_fabric_bitstream_by_region bm fb)).
  { unfold spec_build_config_chain_fabric_bitstream_by_region.
    apply Forall_forall. intros r Hr. apply in_map_iff in Hr.
    destruct Hr as (region & <- & Hin).
    rewrite length_app, repeat_length, length_map.
    assert (length (region_bits fb region) <=
            spec_find_fabric_regional_bitstream_max_size fb); [|lia].
    unfold spec_find_fabric_regional_bitstream_max_size.
    pose proof (proj1 (list_max_le
      (map (fun r => length (region_bits fb r)) (regions fb)) _)
      (Nat.le_refl _)) as Hle.
    rewrite Forall_forall in Hle. apply Hle.
    apply in_map_iff. now exists region. }
  split; [|exact Hall]. cbn.
  destruct (regions fb) as [|r0 rs] eqn:Hregs.
  - unfold spec_find_fabric_regional_bitstream_max_size,
      spec_build_config_chain_fabric_bitstream_by_region.
    now rewrite Hregs.
  - symmetry. apply list_max_const.
    + unfold spec_build_config_chain_fabric_bitstream_by_region.
      rewrite Hregs. discriminate.
    + apply Forall_forall. intros n Hn. apply in_map_iff in Hn.
      destruct Hn as (r & <- & Hr).
      rewrite Forall_forall in Hall. now apply Hall.
Qed.

Section AddressKeyedFacts.
Context {K : Type} (K_eq_dec : forall a b : K, {a = b} + {a <> b}).
Context (addr_of : FabricBitId -> K) (din_of : FabricBitId -> bool).

Abbreviation dist := (distinct K_eq_dec).

Lemma in_distinct (l : list K) (a : K) : In a (dist l) <-> In a l.
Proof.
  induction l as [|x l IH]; cbn; [tauto|].
  split.
  - intros [->|Hin]; [now left|].
    apply in_remove in Hin. right. now apply IH.
  - intros [->|Hin]; [now left|].
    destruct (K_eq_dec x a) as [->|Hne]; [now left|].
    right. apply in_in_remove; [congruence | now apply IH].
Qed.

Lemma NoDup_remove_keeps (l : list K) (a : K) :
  NoDup l -> NoDup (remove K_eq_dec a l).
Proof.
  induction 1 as [|x l Hx Hl IH]; cbn; [constructor|].
  destruct (K_eq_dec a x); [assumption|].
  constructor; [|assumption].
  intros Hin. apply in_remove in Hin. tauto.
Qed.

Lemma NoDup_distinct (l : list K) : NoDup (dist l).
Proof.
  induction l as [|x l IH]; cbn; constructor.
  - apply remove_In.
  - now apply NoDup_remove_keeps.
Qed.

Lemma distinct_snoc (l : list K) (a : K) :
  dist (l ++ [a]) =
  if in_dec K_eq_dec a l then dist l else dist l ++ [a].
Proof.
  induction l as [|x l IH]; cbn [app distinct].
  - reflexivity.
  - rewrite IH.
    destruct (in_dec K_eq_dec a l) as [Hin|Hnin];
      destruct (in_dec K_eq_dec a (x :: l)) as [Hin'|Hnin'];
      cbn in *; try tauto.
    + destruct Hin' as [->|]; [|tauto].
      rewrite remove_app. cbn.
      destruct (K_eq_dec a a); [|congruence]. now rewrite app_nil_r.
    + rewrite remove_app. cbn.
      destruct (K_eq_dec x a); [tauto|]. reflexivity.
Qed.

Lemma din_at_snoc (bs : list FabricBitId) (bit : FabricBitId) (a : K) :
  din_at K_eq_dec addr_of din_of (bs ++ [bit]) a =
  din_at K_eq_dec addr_of din_of bs a ++
  (if K_eq_dec (addr_of bit) a then [din_of bit] else []).
Proof.
  unfold din_at. rewrite filter_app, map_app. cbn.
  now destruct (K_eq_dec (addr_of bit) a).
Qed.

Lemma din_at_absent (bs : list FabricBitId) (a : K) :
  ~ In a (map addr_of bs) -> din_at K_eq_dec addr_of din_of bs a = [].
Proof.
  intros Hnin. unfold din_at.
  induction bs as [|b bs IH]; cbn in *; [reflexivity|].
  destruct (K_eq_dec (addr_of b) a); [tauto|]. apply IH. tauto.
Qed.

Lemma add_din_present (g g' : K -> list bool) (a : K) (v : bool)
    (keys : list K) :
  NoDup keys -> In a keys ->
  g' a = g a ++ [v] -> (forall k, k <> a -> g' k = g k) ->
  add_din K_eq_dec a v (map (fun k => (k, g k)) keys) =
  map (fun k => (k, g' k)) keys.
Proof.
  intros Hnd Hin Ha Hother.
  induction Hnd as [|k keys Hk Hnd IH]; [contradiction|].
  cbn. destruct (K_eq_dec a k) as [->|Hne].
  - rewrite Ha. f_equal.
    apply map_ext_in. intros k' Hk'. f_equal. symmetry. apply Hother.
    intros ->. contradiction.
  - rewrite Hother by congruence. f_equal. apply IH.
    destruct Hin; [congruence | assumption].
Qed.

Lemma add_din_absent (g g' : K -> list bool) (a : K) (v : bool)
    (keys : list K) :
  ~ In a keys ->
  g' a = [v] -> (forall k, k <> a -> g' k = g k) ->
  add_din K_eq_dec a v (map (fun k => (k, g k)) keys) =
  map (fun k => (k, g' k)) (keys ++ [a]).
Proof.
  intros Hnin Ha Hother.
  induction keys as [|k keys IH]; cbn.
  - now rewrite Ha.
  - destruct (K_eq_dec a k) as [->|Hne]; [cbn in Hnin; tauto|].
    rewrite Hother by congruence. f_equal. apply IH.
    cbn in Hnin. tauto.
Qed.

(** The groups are the distinct addresses in order of first occurrence, each
    with the values of its bits in source order. *)
Lemma group_by_address_spec (bs : list FabricBitId) :
  group_by_address K_eq_dec addr_of din_of bs =
  map (fun a => (a, din_at K_eq_dec addr_of din_of bs a))
      (dist (map addr_of bs)).
Proof.
  unfold group_by_address.
  induction bs as [|bit bs IH] using rev_ind; [reflexivity|].
  rewrite fold_left_app. cbn [fold_left]. rewrite IH.
  rewrite map_app. cbn [map]. rewrite distinct_snoc.
  destruct (in_dec K_eq_dec (addr_of bit) (map addr_of bs)) as [Hin|Hnin].
  - apply add_din_present.
    + apply NoDup_distinct.
    + now apply in_distinct.
    + rewrite din_at_snoc.
      now destruct (K_eq_dec (addr_of bit) (addr_of bit)).
    + intros k Hk. rewrite din_at_snoc.
      destruct (K_eq_dec (addr_of bit) k); [congruence|].
      now rewrite app_nil_r.
  - apply add_din_absent.
    + now rewrite in_distinct.
    + rewrite din_at_snoc, din_at_absent by assumption.
      now destruct (K_eq_dec (addr_of bit) (addr_of bit)).
    + intros k Hk. rewrite din_at_snoc.
      destruct (K_eq_dec (addr_of bit) k); [congruence|].
      now rewrite app_nil_r.
Qed.

End AddressKeyedFacts.

(** ** The log only grows *)

Lemma log_grows_ret {A} (a : A) : log_grows (ret a).
Proof. intros s. exists []. cbn. now rewrite app_nil_r. Qed.

Lemma log_grows_bind {A B} (c : M A) (k : A -> M B) :
  log_grows c -> (forall a, log_grows (k a)) -> log_grows (bind c k).
Proof.
  intros Hc Hk s. unfold bind. specialize (Hc s).
  destruct (c s) as [a s1 | s1 |]; auto.
  destruct Hc as [e1 H1]. specialize (Hk a s1).
  destruct (k a s1) as [b s2 | s2 |]; auto;
    destruct Hk as [e2 H2]; exists (e1 ++ e2);
    now rewrite H2, H1, app_assoc.
Qed.

Lemma log_grows_out (t : text) : log_grows (out t).
Proof. intros s. exists []. cbn. now rewrite app_nil_r. Qed.

Lemma log_grows_log_msg (e : log_entry) : log_grows (log_msg e).
Proof. intros s. now exists [e]. Qed.

Lemma log_grows_valid : log_grows valid_file_stream.
Proof. intros s. exists []. cbn. now rewrite app_nil_r. Qed.

Lemma log_grows_fault {A} : log_grows (@fault A).
Proof. intros s. exact I. Qed.

Lemma log_grows_for_each {A} (l : list A) (body : A -> M unit) :
  (forall x, log_grows (body x)) -> log_grows (for_each l body).
Proof.
  intros Hb. induction l as [|x l IH]; cbn.
  - apply log_grows_ret.
  - apply log_grows_bind; auto.
Qed.

Create HintDb log_grows.
#[local] Hint Resolve log_grows_ret log_grows_out log_grows_log_msg
  log_grows_valid log_grows_fault : log_grows.

Ltac log_grows_tac :=
  repeat first
    [ apply log_grows_bind; [| intros ?]
    | apply log_grows_for_each; intros ?
    | progress auto with log_grows ].

Section LogGrows.
Context {U : FabricBitstreamUtils}.

Lemma log_grows_write_bit (bm : BitstreamManager) (fb : FabricBitstream)
    (bit : FabricBitId) (kind : e_config_protocol_type) :
  log_grows (write_fabric_config_bit_to_text_file bm fb bit kind).
Proof.
  unfold write_fabric_config_bit_to_text_file, write_space_to_file.
  apply log_grows_bind; [auto with log_grows|].
  intros ok. destruct (negb ok); [auto with log_grows|].
  destruct kind; log_grows_tac.
Qed.

Lemma log_grows_flatten_loop (bm : BitstreamManager) (fb : FabricBitstream)
    (cp : ConfigProtocol) (todo : list FabricBitId) :
  forall status, log_grows (flatten_loop bm fb cp todo status).
Proof.
  induction todo as [|bit todo IH]; intros status; cbn [flatten_loop].
  - apply log_grows_ret.
  - apply log_grows_bind; [apply log_grows_write_bit|].
    intros st. destruct (1 =? st)%Z; auto with log_grows.
Qed.

Lemma log_grows_route (bm : BitstreamManager) (fb : FabricBitstream)
    (cp : ConfigProtocol) :
  log_grows (route bm fb cp).
Proof.
  unfold route. destruct (type cp).
  - apply log_grows_flatten_loop.
  - unfold write_config_chain_fabric_bitstream_to_text_file, endl.
    log_grows_tac.
    unfold write_region_bit.
    match goal with |- context [nth_error ?l ?i] =>
      destruct (nth_error l i) end; auto with log_grows.
  - unfold write_memory_bank_fabric_bitstream_to_text_file, endl.
    log_grows_tac.
  - unfold write_frame_based_fabric_bitstream_to_text_file, endl.
    log_grows_tac.
  - log_grows_tac.
Qed.

(** Every message logged before the stream was checked is still in the log
    when the call ends. *)
Lemma opening_messages_kept (fs : FileSystem) (bm : BitstreamManager)
    (fb : FabricBitstream) (cp : ConfigProtocol) (fname : string)
    (verbose : bool) (e : log_entry) :
  call (write_fabric_bitstream_to_text_file fs bm fb cp fname verbose)
    <> Undefined ->
  In e (opening_messages fb fname) ->
  In e (messages_of
          (call (write_fabric_bitstream_to_text_file fs bm fb cp fname
                   verbose))).
Proof.
  rewrite call_unfold. intros Hdef Hin.
  destruct (openable fs fname).
  - pose proof (log_grows_route bm fb cp
      (mkState (fstream_open fs fname) (opening_messages fb fname))) as Hg.
    destruct (route bm fb cp _) as [st s' | s' |]; [| |congruence];
      destruct Hg as [extra Hlog]; cbn [messages_of log] in *;
      rewrite Hlog, ?in_app_iff; tauto.
  - cbn [messages_of]. apply in_or_app. now left.
Qed.

End LogGrows.

(** ** Lines *)

Lemma count_occ_digits_LF (l : list bool) :
  count_occ ascii_dec (map digit l) LF = 0.
Proof.
  induction l as [|b l IH]; [reflexivity|].
  cbn [map]. rewrite count_occ_cons_neq; [exact IH|].
  destruct b; discriminate.
Qed.

Lemma count_occ_unlines (ls : list text) :
  Forall (fun l => count_occ ascii_dec l LF = 0) ls ->
  count_occ ascii_dec (unlines ls) LF = length ls.
Proof.
  unfold unlines. induction 1 as [|l ls Hl Hls IH]; [reflexivity|].
  cbn [map concat length]. rewrite !count_occ_app, Hl, IH. reflexivity.
Qed.

Lemma nth_map_seq {A} (f : nat -> A) (n i : nat) (d : A) :
  i < n -> nth i (map f (seq 0 n)) d = f i.
Proof.
  intros Hlt.
  rewrite (nth_indep _ d (f 0)) by now rewrite length_map, length_seq.
  rewrite map_nth, seq_nth by assumption. reflexivity.
Qed.

Section Totality.
Context {U : FabricBitstreamUtils}.

Lemma yields_done {A} (c : M A) (t : text) (a : A) (s : state) :
  yields c t a -> exists a' s', c s = Done a' s'.
Proof. intros H. rewrite H. now eauto. Qed.

Lemma write_bit_total (bm : BitstreamManager) (fb : FabricBitstream)
    (bit : FabricBitId) (kind : e_config_protocol_type) (s : state) :
  exists status s',
    write_fabric_config_bit_to_text_file bm fb bit kind s = Done status s'.
Proof.
  unfold write_fabric_config_bit_to_text_file, valid_file_stream,
    write_space_to_file.
  unfold bind at 1. destruct (good (fp s)); cbn [negb]; [|now eauto].
  destruct kind;
    try (eapply yields_done; solve [eauto 12 with emits]).
  unfold bind, log_msg, ret. now eauto.
Qed.

Lemma flatten_loop_total (bm : BitstreamManager) (fb : FabricBitstream)
    (cp : ConfigProtocol) (todo : list FabricBitId) :
  forall status s, exists status' s',
    flatten_loop bm fb cp todo status s = Done status' s'.
Proof.
  induction todo as [|bit todo IH]; intros status s; cbn [flatten_loop].
  - now eauto.
  - destruct (write_bit_total bm fb bit (type cp) s) as (st & s1 & H1).
    unfold bind. rewrite H1.
    destruct (1 =? st)%Z; [now eauto | apply IH].
Qed.

Lemma route_total (bm : BitstreamManager) (fb : FabricBitstream)
    (cp : ConfigProtocol) (s : state) :
  regions_aligned bm fb ->
  exists status s', route bm fb cp s = Done status s'.
Proof.
  intros Hal. unfold route. destruct (type cp).
  - apply flatten_loop_total.
  - rewrite write_config_chain_emits by assumption. now eauto.
  - rewrite write_memory_bank_emits. now eauto.
  - rewrite write_frame_based_emits. now eauto.
  - unfold bind, log_msg, ret. now eauto.
Qed.

End Totality.

(** ** The formats on the sample inputs *)

Example standalone_run :
  call (@write_fabric_bitstream_to_text_file spec_utils Samples.roomy
          Samples.bm Samples.standalone_fb (mkCP CONFIG_MEM_STANDALONE)
          "fabric.bit" false) =
  Returned 0%Z (chars "1011" ++ [LF])
    [LogTimer 4 "fabric.bit"; LogTimerFinish 4 "fabric.bit"].
Proof. reflexivity. Qed.

Example scan_chain_run :
  call (@write_fabric_bitstream_to_text_file spec_utils Samples.roomy
          Samples.bm Samples.chain_fb (mkCP CONFIG_MEM_SCAN_CHAIN)
          "fabric.bit" false) =
  Returned 0%Z
    (chars "10" ++ [LF] ++ chars "01" ++ [LF] ++ chars "10" ++ [LF] ++ [LF])
    [LogTimer 5 "fabric.bit"; LogTimerFinish 5 "fabric.bit"].
Proof. reflexivity. Qed.

Example memory_bank_run :
  call (@write_fabric_bitstream_to_text_file spec_utils Samples.roomy
          Samples.bm Samples.bank_fb (mkCP CONFIG_MEM_MEMORY_BANK)
          "fabric.bit" false) =
  Returned 0%Z (chars "01 10 10" ++ [LF] ++ [LF])
    [LogTimer 2 "fabric.bit"; LogTimerFinish 2 "fabric.bit"].
Proof. reflexivity. Qed.

Example frame_based_run :
  call (@write_fabric_bitstream_to_text_file spec_utils Samples.roomy
          Samples.bm Samples.frame_fb (mkCP CONFIG_MEM_FRAME_BASED)
          "fabric.bit" true) =
  Returned 0%Z (chars "101 1" ++ [LF] ++ [LF])
    [LogTimer 1 "fabric.bit"; LogVerbose 1 "fabric.bit";
     LogTimerFinish 1 "fabric.bit"].
Proof. reflexivity. Qed.

Example unopenable_run :
  call (@write_fabric_bitstream_to_text_file spec_utils
          (mkFS (fun _ => false) (fun _ => 1000))
          Samples.bm Samples.frame_fb (mkCP CONFIG_MEM_FRAME_BASED)
          "" true) =
  Aborted [LogError msg_empty_file_name; LogTimer 1 "";
           LogError msg_invalid_file_path].
Proof. reflexivity. Qed.

(** * The claims *)

Section Claims.
Context {U : FabricBitstreamUtils}.

(** C1. Scan chain: the encoder emits exactly [maxLen] lines, [maxLen] being
    the length of the longest regional bitstream once aligned; line [i] is
    the [i]-th character of every region in region order, with no separator,
    followed by a line terminator.  The number of line terminators is
    [maxLen], not the number of bits. *)
Theorem scan_chain_one_line_per_depth (bm : BitstreamManager)
    (fb : FabricBitstream) (s : state) :
  regions_aligned bm fb ->
  good (fp s) = true ->
  length (unlines (chain_lines bm fb)) <= room (fp s) ->
  exists s',
    write_config_chain_fabric_bitstream_to_text_file bm fb s = Done 0%Z s' /\
    written (fp s') = written (fp s) ++ unlines (chain_lines bm fb) /\
    length (chain_lines bm fb) = find_fabric_regional_bitstream_max_size fb /\
    find_fabric_regional_bitstream_max_size fb =
      list_max (map (@length bool)
                    (build_config_chain_fabric_bitstream_by_region bm fb)) /\
    count_occ ascii_dec (unlines (chain_lines bm fb)) LF =
      find_fabric_regional_bitstream_max_size fb /\
    forall i, i < find_fabric_regional_bitstream_max_size fb ->
      nth i (chain_lines bm fb) [] =
      map (fun region_bitstream => digit (nth i region_bitstream false))
          (build_config_chain_fabric_bitstream_by_region bm fb).
Proof.
  intros Hal Hg Hr.
  assert (Hlen : length (chain_lines bm fb) =
                 find_fabric_regional_bitstream_max_size fb)
    by (unfold chain_lines; now rewrite length_map, length_seq).
  exists (emit (unlines (chain_lines bm fb)) s).
  destruct (emit_fits _ s Hg Hr) as (_ & _ & Hw & _).
  repeat split.
  - now apply write_config_chain_emits.
  - exact Hw.
  - exact Hlen.
  - apply Hal.
  - rewrite count_occ_unlines; [exact Hlen|].
    unfold chain_lines. apply Forall_forall. intros l Hl.
    apply in_map_iff in Hl. destruct Hl as (i & <- & _).
    unfold chain_column.
    rewrite <- (map_map (fun r => nth i r false) digit).
    apply count_occ_digits_LF.
  - intros i Hi. unfold chain_lines. now rewrite nth_map_seq.
Qed.

(** C2. Memory bank and frame based: every emitted line is the key
    component(s) as raw address characters separated by one space, one more
    space, the data vector of the group as digits with no separator, and a
    line terminator; in the two-part key BL comes before WL. *)
Theorem address_keyed_line_format (fb : FabricBitstream) (s : state) :
  good (fp s) = true ->
  length (unlines (memory_bank_lines fb)) <= room (fp s) ->
  length (unlines (frame_lines fb)) <= room (fp s) ->
  (exists s',
     write_memory_bank_fabric_bitstream_to_text_file fb s = Done 0%Z s' /\
     written (fp s') =
     written (fp s) ++
     concat (map (fun g : (text * text) * list bool =>
                    let (addr, din) := g in
                    let (bl, wl) := addr in
                    bl ++ [SP] ++ wl ++ [SP] ++ map digit din ++ [LF])
                 (build_memory_bank_fabric_bitstream_by_address fb))) /\
  (exists s',
     write_frame_based_fabric_bitstream_to_text_file fb s = Done 0%Z s' /\
     written (fp s') =
     written (fp s) ++
     concat (map (fun g : text * list bool =>
                    let (addr, din) := g in
                    addr ++ [SP] ++ map digit din ++ [LF])
                 (build_frame_based_fabric_bitstream_by_address fb))).
Proof.
  intros Hg Hbank Hframe. split.
  - exists (emit (unlines (memory_bank_lines fb)) s). split.
    + apply write_memory_bank_emits.
    + destruct (emit_fits _ s Hg Hbank) as (_ & _ & -> & _). f_equal.
      unfold unlines, memory_bank_lines. rewrite map_map.
      f_equal. apply map_ext. intros [[bl wl] din].
      unfold memory_bank_line. cbn [fst snd]. now rewrite <- !app_assoc.
  - exists (emit (unlines (frame_lines fb)) s). split.
    + apply write_frame_based_emits.
    + destruct (emit_fits _ s Hg Hframe) as (_ & _ & -> & _). f_equal.
      unfold unlines, frame_lines. rewrite map_map.
      f_equal. apply map_ext. intros [addr din].
      unfold frame_line. cbn [fst snd]. now rewrite <- !app_assoc.
Qed.

(** C3. Standalone: what is written is the digit of every bit's value, in
    source order, with nothing in between and nothing after. *)
Theorem standalone_unbroken_digits (bm : BitstreamManager)
    (fb : FabricBitstream) (cp : ConfigProtocol) (s : state) :
  type cp = CONFIG_MEM_STANDALONE ->
  good (fp s) = true ->
  length (bits fb) <= room (fp s) ->
  exists s',
    write_flatten_fabric_bitstream_to_text_file bm fb cp s = Done 0%Z s' /\
    written (fp s') =
    written (fp s) ++
    map (fun bit => digit (bit_value bm (config_bit fb bit))) (bits fb) /\
    log s' = log s.
Proof.
  intros Hty Hg Hr.
  exists (emit (flatten_text bm fb) s).
  assert (Hr' : length (flatten_text bm fb) <= room (fp s))
    by (unfold flatten_text; now rewrite length_map).
  destruct (emit_fits _ s Hg Hr') as (_ & _ & Hw & Hl).
  split; [now apply write_flatten_fits | split; [exact Hw | exact Hl]].
Qed.

(** C5. Whatever the protocol kind, Standalone included, the call appends
    exactly one line terminator after the structured content the router's
    encoder wrote, and nothing else: the file is that content followed by one
    terminator. *)
Theorem one_trailing_line_terminator (fs : FileSystem) (bm : BitstreamManager)
    (fb : FabricBitstream) (cp : ConfigProtocol) (fname : string)
    (verbose : bool) :
  regions_aligned bm fb ->
  openable fs fname = true ->
  length (structured_content bm fb (type cp)) < capacity fs fname ->
  exists status s' messages,
    route bm fb cp
      (mkState (fstream_open fs fname) (opening_messages fb fname)) =
      Done status s' /\
    written (fp s') = structured_content bm fb (type cp) /\
    call (write_fabric_bitstream_to_text_file fs bm fb cp fname verbose) =
      Returned status (written (fp s') ++ [LF]) messages.
Proof.
  intros Hal Hop Hcap.
  assert (Hopen : fstream_open fs fname = mkStream true (capacity fs fname) [])
    by (unfold fstream_open; now rewrite Hop).
  eexists _, _, _. split; [|split].
  - apply route_fits; rewrite ?Hopen; cbn [fp good room]; auto. lia.
  - cbn [fp]. rewrite Hopen, put_text_fits; cbn [good room written]; auto.
    lia.
  - rewrite call_returns by auto. cbn [fp].
    rewrite Hopen, put_text_fits; cbn [good room written]; auto. lia.
Qed.

(** C6. With an unrecognized protocol kind the router touches the stream
    for no input (no encoder runs), the call returns 1, and the destination
    holds no structured content: at most the final line terminator. *)
Theorem unrecognized_kind_fails_fast (fs : FileSystem) (bm : BitstreamManager)
    (fb : FabricBitstream) (cp : ConfigProtocol) (fname : string)
    (verbose : bool) :
  type cp = CONFIG_MEM_UNRECOGNIZED ->
  openable fs fname = true ->
  (forall s,
     route bm fb cp s =
     Done 1%Z (mkState (fp s) (log s ++ [LogError msg_invalid_protocol]))) /\
  exists messages,
    call (write_fabric_bitstream_to_text_file fs bm fb cp fname verbose) =
      Returned 1%Z (firstn (capacity fs fname) [LF]) messages /\
    In (LogError msg_invalid_protocol) messages.
Proof.
  intros Hty Hop.
  assert (Hroute : forall s, route bm fb cp s =
            Done 1%Z (mkState (fp s) (log s ++ [LogError msg_invalid_protocol])))
    by (intros s; unfold route; now rewrite Hty).
  split; [exact Hroute|].
  rewrite call_unfold, Hop, Hroute. cbn [fp log].
  eexists. split.
  - f_equal. unfold fstream_open. rewrite Hop.
    rewrite put_text_good by reflexivity. reflexivity.
  - apply in_or_app. left. apply in_or_app. right. now left.
Qed.

(** C7 (corrected).  An empty destination name is logged and does not by
    itself end the call or set its status: the call goes on to open the
    destination and to check the stream, as for any other name.  When the
    empty name does not open, the stream check ends the call there: no
    encoder is reached, nothing is written and no status is returned.  Were
    it to open, the call would go through the router and return the router's
    status. *)
Theorem empty_name_reaches_the_stream_check (fs : FileSystem)
    (bm : BitstreamManager) (fb : FabricBitstream) (cp : ConfigProtocol)
    (verbose : bool) :
  (openable fs ""%string = false ->
   call (write_fabric_bitstream_to_text_file fs bm fb cp "" verbose) =
   Aborted [LogError msg_empty_file_name; LogTimer (num_bits fb) "";
            LogError msg_invalid_file_path]) /\
  (openable fs ""%string = true ->
   regions_aligned bm fb ->
   length (structured_content bm fb (type cp)) < capacity fs ""%string ->
   call (write_fabric_bitstream_to_text_file fs bm fb cp "" verbose) =
   Returned (route_status (type cp))
            (structured_content bm fb (type cp) ++ [LF])
            ([LogError msg_empty_file_name; LogTimer (num_bits fb) ""] ++
             route_messages (type cp) ++
             (if verbose then [LogVerbose (length (bits fb)) ""] else []) ++
             [LogTimerFinish (num_bits fb) ""])).
Proof.
  split.
  - intros Hop. now rewrite call_aborts.
  - intros Hop Hal Hcap. now rewrite call_returns.
Qed.

(** C9. The serializer is deterministic: for one bit source, protocol kind
    and verbosity, two calls writing to two destinations that both open (and
    accept as many characters as each other, or both everything) return the
    same status and leave byte-identical files. *)
Theorem serializer_deterministic (fs1 fs2 : FileSystem)
    (bm : BitstreamManager) (fb : FabricBitstream) (cp : ConfigProtocol)
    (fname1 fname2 : string) (verbose : bool) :
  regions_aligned bm fb ->
  openable fs1 fname1 = true ->
  openable fs2 fname2 = true ->
  capacity fs1 fname1 = capacity fs2 fname2 \/
  (length (structured_content bm fb (type cp)) < capacity fs1 fname1 /\
   length (structured_content bm fb (type cp)) < capacity fs2 fname2) ->
  exists status file messages1 messages2,
    call (write_fabric_bitstream_to_text_file fs1 bm fb cp fname1 verbose) =
      Returned status file messages1 /\
    call (write_fabric_bitstream_to_text_file fs2 bm fb cp fname2 verbose) =
      Returned status file messages2.
Proof.
  intros Hal Hop1 Hop2 [Hcap | [Hc1 Hc2]].
  - destruct (call_stream_only fs1 fs2 bm fb cp fname1 fname2 verbose verbose)
      as [Hst Hfile]; [congruence | assumption |].
    rewrite !call_unfold, Hop1, Hop2 in *.
    destruct (route_total bm fb cp
      (mkState (fstream_open fs1 fname1) (opening_messages fb fname1)) Hal)
      as (st1 & s1 & Hr1).
    destruct (route_total bm fb cp
      (mkState (fstream_open fs2 fname2) (opening_messages fb fname2)) Hal)
      as (st2 & s2 & Hr2).
    rewrite Hr1, Hr2 in *. cbn [status_of file_of] in Hst, Hfile.
    assert (Est : st1 = st2) by congruence.
    assert (Efile : written (put_text [LF] (fp s1)) =
                    written (put_text [LF] (fp s2))) by congruence.
    rewrite Est, Efile. now eexists _, _, _, _.
  - rewrite !call_returns by auto. now eexists _, _, _, _.
Qed.


End Claims.

(** ** Claims that rest on how the groups are built *)

Lemma spec_memory_bank_groups (fb : FabricBitstream) :
  spec_build_memory_bank_fabric_bitstream_by_address fb =
  map (fun a => (a, din_at addr_pair_eq_dec (bank_address fb) (bit_din fb)
                      (bits fb) a))
      (distinct addr_pair_eq_dec (map (bank_address fb) (bits fb))).
Proof. apply group_by_address_spec. Qed.

Lemma spec_frame_groups (fb : FabricBitstream) :
  spec_build_frame_based_fabric_bitstream_by_address fb =
  map (fun a => (a, din_at text_eq_dec (bit_address fb) (bit_din fb)
                      (bits fb) a))
      (distinct text_eq_dec (map (bit_address fb) (bits fb))).
Proof. apply group_by_address_spec. Qed.

(** C4. Memory bank and frame based: one line per group, and the keys of
    the groups, in the order the lines are emitted, are the distinct
    addresses (BL/WL pairs) in the order they first occur in the bit source. *)
Theorem address_groups_in_first_seen_order (fb : FabricBitstream)
    (s : state) :
  good (fp s) = true ->
  length (unlines (@memory_bank_lines spec_utils fb)) <= room (fp s) ->
  length (unlines (@frame_lines spec_utils fb)) <= room (fp s) ->
  (exists s',
     @write_memory_bank_fabric_bitstream_to_text_file spec_utils fb s =
       Done 0%Z s' /\
     written (fp s') =
       written (fp s) ++
       unlines (map memory_bank_line
                    (spec_build_memory_bank_fabric_bitstream_by_address fb)) /\
     map fst (spec_build_memory_bank_fabric_bitstream_by_address fb) =
       distinct addr_pair_eq_dec (map (bank_address fb) (bits fb))) /\
  (exists s',
     @write_frame_based_fabric_bitstream_to_text_file spec_utils fb s =
       Done 0%Z s' /\
     written (fp s') =
       written (fp s) ++
       unlines (map frame_line
                    (spec_build_frame_based_fabric_bitstream_by_address fb)) /\
     map fst (spec_build_frame_based_fabric_bitstream_by_address fb) =
       distinct text_eq_dec (map (bit_address fb) (bits fb))).
Proof.
  intros Hg Hbank Hframe. split.
  - exists (emit (unlines (@memory_bank_lines spec_utils fb)) s).
    destruct (emit_fits _ s Hg Hbank) as (_ & _ & Hw & _).
    split; [apply write_memory_bank_emits | split; [exact Hw|]].
    rewrite spec_memory_bank_groups, map_map. cbn [fst]. apply map_id.
  - exists (emit (unlines (@frame_lines spec_utils fb)) s).
    destruct (emit_fits _ s Hg Hframe) as (_ & _ & Hw & _).
    split; [apply write_frame_based_emits | split; [exact Hw|]].
    rewrite spec_frame_groups, map_map. cbn [fst]. apply map_id.
Qed.

(** C8. In every emitted line the data vector holds the values of the bits
    at that address in the order the bits occur in the source, whatever
    their values. *)
Theorem data_vector_in_source_order (fb : FabricBitstream) (s : state) :
  good (fp s) = true ->
  length (unlines (@memory_bank_lines spec_utils fb)) <= room (fp s) ->
  length (unlines (@frame_lines spec_utils fb)) <= room (fp s) ->
  (exists s',
     @write_memory_bank_fabric_bitstream_to_text_file spec_utils fb s =
       Done 0%Z s' /\
     written (fp s') =
       written (fp s) ++
       unlines
         (map (fun a : text * text =>
                 fst a ++ [SP] ++ snd a ++ [SP] ++
                 map digit
                   (map (bit_din fb)
                      (filter (fun bit =>
                                 if addr_pair_eq_dec (bank_address fb bit) a
                                 then true else false)
                              (bits fb))))
              (distinct addr_pair_eq_dec (map (bank_address fb) (bits fb))))) /\
  (exists s',
     @write_frame_based_fabric_bitstream_to_text_file spec_utils fb s =
       Done 0%Z s' /\
     written (fp s') =
       written (fp s) ++
       unlines
         (map (fun a : text =>
                 a ++ [SP] ++
                 map digit
                   (map (bit_din fb)
                      (filter (fun bit =>
                                 if text_eq_dec (bit_address fb bit) a
                                 then true else false)
                              (bits fb))))
              (distinct text_eq_dec (map (bit_address fb) (bits fb))))).
Proof.
  intros Hg Hbank Hframe. split.
  - exists (emit (unlines (@memory_bank_lines spec_utils fb)) s).
    destruct (emit_fits _ s Hg Hbank) as (_ & _ & Hw & _).
    split; [apply write_memory_bank_emits|].
    rewrite Hw. unfold memory_bank_lines.
    cbn [build_memory_bank_fabric_bitstream_by_address spec_utils].
    now rewrite spec_memory_bank_groups, map_map.
  - exists (emit (unlines (@frame_lines spec_utils fb)) s).
    destruct (emit_fits _ s Hg Hframe) as (_ & _ & Hw & _).
    split; [apply write_frame_based_emits|].
    rewrite Hw. unfold frame_lines.
    cbn [build_frame_based_fabric_bitstream_by_address spec_utils].
    now rewrite spec_frame_groups, map_map.
Qed.

(** * The claims on the sample inputs *)

(** Regions [1,0,1] and [0,1]: three lines, 10, 01, 10. *)
Lemma scan_chain_sample :
  @regions_aligned spec_utils Samples.bm Samples.chain_fb /\
  good (fp Samples.fresh) = true /\
  length (unlines (@chain_lines spec_utils Samples.bm Samples.chain_fb))
    <= room (fp Samples.fresh) /\
  exists s',
    @write_config_chain_fabric_bitstream_to_text_file spec_utils
      Samples.bm Samples.chain_fb Samples.fresh = Done 0%Z s' /\
    written (fp s') =
      chars "10" ++ [LF] ++ chars "01" ++ [LF] ++ chars "10" ++ [LF] /\
    @find_fabric_regional_bitstream_max_size spec_utils Samples.chain_fb = 3.
Proof.
  assert (H1 : @regions_aligned spec_utils Samples.bm Samples.chain_fb)
    by (split; [reflexivity | repeat constructor]).
  assert (H2 : good (fp Samples.fresh) = true) by reflexivity.
  assert (H3 : length (unlines
                 (@chain_lines spec_utils Samples.bm Samples.chain_fb))
               <= room (fp Samples.fresh)) by (vm_compute; lia).
  split; [exact H1 | split; [exact H2 | split; [exact H3 |]]].
  destruct (@scan_chain_one_line_per_depth spec_utils Samples.bm
              Samples.chain_fb Samples.fresh H1 H2 H3)
    as (s' & Hrun & Hw & Hlen & _).
  exists s'. split; [exact Hrun | split; [rewrite Hw; reflexivity|]].
  rewrite <- Hlen. reflexivity.
Defined.

(** Two bits at BL 01, WL 10 with values 1 then 0: one line, 01 10 10; one
    bit at frame address 101 with value 1: one line, 101 1. *)
Lemma address_keyed_sample :
  good (fp Samples.fresh) = true /\
  length (unlines (@memory_bank_lines spec_utils Samples.bank_fb))
    <= room (fp Samples.fresh) /\
  length (unlines (@frame_lines spec_utils Samples.frame_fb))
    <= room (fp Samples.fresh) /\
  (exists s',
     @write_memory_bank_fabric_bitstream_to_text_file spec_utils
       Samples.bank_fb Samples.fresh = Done 0%Z s' /\
     written (fp s') = chars "01 10 10" ++ [LF]) /\
  (exists s',
     @write_frame_based_fabric_bitstream_to_text_file spec_utils
       Samples.frame_fb Samples.fresh = Done 0%Z s' /\
     written (fp s') = chars "101 1" ++ [LF]).
Proof.
  assert (H1 : good (fp Samples.fresh) = true) by reflexivity.
  assert (Hb1 : length (unlines (@memory_bank_lines spec_utils Samples.bank_fb))
                <= room (fp Samples.fresh)) by (vm_compute; lia).
  assert (Hb2 : length (unlines (@frame_lines spec_utils Samples.bank_fb))
                <= room (fp Samples.fresh)) by (vm_compute; lia).
  assert (Hf1 : length (unlines (@memory_bank_lines spec_utils Samples.frame_fb))
                <= room (fp Samples.fresh)) by (vm_compute; lia).
  assert (Hf2 : length (unlines (@frame_lines spec_utils Samples.frame_fb))
                <= room (fp Samples.fresh)) by (vm_compute; lia).
  split; [exact H1 | split; [exact Hb1 | split; [exact Hf2 | split]]].
  - destruct (@address_keyed_line_format spec_utils Samples.bank_fb
                Samples.fresh H1 Hb1 Hb2) as [(s' & Hrun & Hw) _].
    exists s'. split; [exact Hrun | rewrite Hw; reflexivity].
  - destruct (@address_keyed_line_format spec_utils Samples.frame_fb
                Samples.fresh H1 Hf1 Hf2) as [_ (s' & Hrun & Hw)].
    exists s'. split; [exact Hrun | rewrite Hw; reflexivity].
Defined.

(** Bits 1,0,1,1: the digits 1011 and nothing else. *)
Lemma standalone_sample :
  type (mkCP CONFIG_MEM_STANDALONE) = CONFIG_MEM_STANDALONE /\
  good (fp Samples.fresh) = true /\
  length (bits Samples.standalone_fb) <= room (fp Samples.fresh) /\
  exists s',
    @write_flatten_fabric_bitstream_to_text_file
      Samples.bm Samples.standalone_fb (mkCP CONFIG_MEM_STANDALONE)
      Samples.fresh = Done 0%Z s' /\
    written (fp s') = chars "1011".
Proof.
  assert (H1 : type (mkCP CONFIG_MEM_STANDALONE) = CONFIG_MEM_STANDALONE)
    by reflexivity.
  assert (H2 : good (fp Samples.fresh) = true) by reflexivity.
  assert (H3 : length (bits Samples.standalone_fb) <= room (fp Samples.fresh))
    by (vm_compute; lia).
  split; [exact H1 | split; [exact H2 | split; [exact H3 |]]].
  destruct (@standalone_unbroken_digits Samples.bm Samples.standalone_fb
              (mkCP CONFIG_MEM_STANDALONE) Samples.fresh H1 H2 H3)
    as (s' & Hrun & Hw & _).
  exists s'. split; [exact Hrun | rewrite Hw; reflexivity].
Defined.

(** Addresses 10, 01, 10 in source order: the line of 10 comes first. *)
Lemma first_seen_order_sample :
  good (fp Samples.fresh) = true /\
  length (unlines (@memory_bank_lines spec_utils Samples.unsorted_fb))
    <= room (fp Samples.fresh) /\
  length (unlines (@frame_lines spec_utils Samples.unsorted_fb))
    <= room (fp Samples.fresh) /\
  (exists s',
     @write_memory_bank_fabric_bitstream_to_text_file spec_utils
       Samples.unsorted_fb Samples.fresh = Done 0%Z s' /\
     written (fp s') = chars "10 1 11" ++ [LF] ++ chars "01 1 0" ++ [LF]) /\
  (exists s',
     @write_frame_based_fabric_bitstream_to_text_file spec_utils
       Samples.unsorted_fb Samples.fresh = Done 0%Z s' /\
     written (fp s') = chars "10 11" ++ [LF] ++ chars "01 0" ++ [LF] /\
     map fst (spec_build_frame_based_fabric_bitstream_by_address
                Samples.unsorted_fb) = [chars "10"; chars "01"]).
Proof.
  assert (H1 : good (fp Samples.fresh) = true) by reflexivity.
  assert (H2 : length (unlines
                 (@memory_bank_lines spec_utils Samples.unsorted_fb))
               <= room (fp Samples.fresh)) by (vm_compute; lia).
  assert (H3 : length (unlines (@frame_lines spec_utils Samples.unsorted_fb))
               <= room (fp Samples.fresh)) by (vm_compute; lia).
  split; [exact H1 | split; [exact H2 | split; [exact H3 |]]].
  destruct (address_groups_in_first_seen_order Samples.unsorted_fb
              Samples.fresh H1 H2 H3)
    as [(s1 & Hrun1 & Hw1 & _) (s2 & Hrun2 & Hw2 & Hkeys)].
  split.
  - exists s1. split; [exact Hrun1 | rewrite Hw1; reflexivity].
  - exists s2. split; [exact Hrun2 | split; [rewrite Hw2; reflexivity|]].
    rewrite Hkeys. reflexivity.
Defined.

(** Two bits at one address with values 1 and 0: stored as 1, 0 the line
    ends in 10, stored as 0, 1 it ends in 01. *)
Lemma source_order_sample :
  good (fp Samples.fresh) = true /\
  length (unlines (@memory_bank_lines spec_utils Samples.bank_fb))
    <= room (fp Samples.fresh) /\
  length (unlines (@frame_lines spec_utils Samples.bank_fb))
    <= room (fp Samples.fresh) /\
  length (unlines (@memory_bank_lines spec_utils Samples.bank_fb_swapped))
    <= room (fp Samples.fresh) /\
  length (unlines (@frame_lines spec_utils Samples.bank_fb_swapped))
    <= room (fp Samples.fresh) /\
  exists s1 s2,
    @write_memory_bank_fabric_bitstream_to_text_file spec_utils
      Samples.bank_fb Samples.fresh = Done 0%Z s1 /\
    written (fp s1) = chars "01 10 10" ++ [LF] /\
    @write_memory_bank_fabric_bitstream_to_text_file spec_utils
      Samples.bank_fb_swapped Samples.fresh = Done 0%Z s2 /\
    written (fp s2) = chars "01 10 01" ++ [LF].
Proof.
  assert (H1 : good (fp Samples.fresh) = true) by reflexivity.
  assert (H2 : length (unlines (@memory_bank_lines spec_utils Samples.bank_fb))
               <= room (fp Samples.fresh)) by (vm_compute; lia).
  assert (H3 : length (unlines (@frame_lines spec_utils Samples.bank_fb))
               <= room (fp Samples.fresh)) by (vm_compute; lia).
  assert (H4 : length (unlines
                 (@memory_bank_lines spec_utils Samples.bank_fb_swapped))
               <= room (fp Samples.fresh)) by (vm_compute; lia).
  assert (H5 : length (unlines
                 (@frame_lines spec_utils Samples.bank_fb_swapped))
               <= room (fp Samples.fresh)) by (vm_compute; lia).
  split; [exact H1 | split; [exact H2 | split; [exact H3
    | split; [exact H4 | split; [exact H5 |]]]]].
  destruct (data_vector_in_source_order Samples.bank_fb Samples.fresh
              H1 H2 H3) as [(s1 & Hrun1 & Hw1) _].
  destruct (data_vector_in_source_order Samples.bank_fb_swapped Samples.fresh
              H1 H4 H5) as [(s2 & Hrun2 & Hw2) _].
  exists s1, s2.
  split; [exact Hrun1 | split; [rewrite Hw1; reflexivity |]].
  split; [exact Hrun2 | rewrite Hw2; reflexivity].
Defined.

(** Standalone bits 1,0,1,1: the file is 1011 and one line terminator. *)
Lemma trailing_terminator_sample :
  @regions_aligned spec_utils Samples.bm Samples.standalone_fb /\
  openable Samples.roomy "fabric.bit" = true /\
  length (@structured_content spec_utils Samples.bm Samples.standalone_fb
            (type (mkCP CONFIG_MEM_STANDALONE)))
    < capacity Samples.roomy "fabric.bit" /\
  exists messages,
    call (@write_fabric_bitstream_to_text_file spec_utils Samples.roomy
            Samples.bm Samples.standalone_fb (mkCP CONFIG_MEM_STANDALONE)
            "fabric.bit" false) =
    Returned 0%Z (chars "1011" ++ [LF]) messages.
Proof.
  assert (H1 : @regions_aligned spec_utils Samples.bm Samples.standalone_fb)
    by (split; [reflexivity | constructor]).
  assert (H2 : openable Samples.roomy "fabric.bit" = true) by reflexivity.
  assert (H3 : length (@structured_content spec_utils Samples.bm
                 Samples.standalone_fb (type (mkCP CONFIG_MEM_STANDALONE)))
               < capacity Samples.roomy "fabric.bit") by (vm_compute; lia).
  split; [exact H1 | split; [exact H2 | split; [exact H3 |]]].
  destruct (@one_trailing_line_terminator spec_utils Samples.roomy Samples.bm
              Samples.standalone_fb (mkCP CONFIG_MEM_STANDALONE)
              "fabric.bit" false H1 H2 H3)
    as (status & s' & messages & Hroute & Hw & Hcall).
  exists messages. rewrite Hcall, Hw. f_equal.
  vm_compute in Hroute. now injection Hroute.
Defined.

(** An unrecognized kind on a destination that opens: status 1, and the
    file holds the final line terminator only. *)
Lemma unrecognized_kind_sample :
  type (mkCP CONFIG_MEM_UNRECOGNIZED) = CONFIG_MEM_UNRECOGNIZED /\
  openable Samples.roomy "fabric.bit" = true /\
  exists messages,
    call (@write_fabric_bitstream_to_text_file spec_utils Samples.roomy
            Samples.bm Samples.frame_fb (mkCP CONFIG_MEM_UNRECOGNIZED)
            "fabric.bit" false) =
    Returned 1%Z [LF] messages.
Proof.
  assert (H1 : type (mkCP CONFIG_MEM_UNRECOGNIZED) = CONFIG_MEM_UNRECOGNIZED)
    by reflexivity.
  assert (H2 : openable Samples.roomy "fabric.bit" = true) by reflexivity.
  split; [exact H1 | split; [exact H2 |]].
  destruct (@unrecognized_kind_fails_fast spec_utils Samples.roomy Samples.bm
              Samples.frame_fb (mkCP CONFIG_MEM_UNRECOGNIZED) "fabric.bit"
              false H1 H2) as (_ & messages & Hcall & _).
  exists messages. exact Hcall.
Defined.

(** A frame-based call with an empty name on a file system where the empty
    name does not open: the name is reported, the stream check ends the
    call. *)
Lemma empty_name_sample_aborts :
  openable Edge.named_only "" = false /\
  call (@write_fabric_bitstream_to_text_file spec_utils Edge.named_only
          Samples.bm Samples.frame_fb (mkCP CONFIG_MEM_FRAME_BASED) "" false) =
  Aborted [LogError msg_empty_file_name; LogTimer 1 "";
           LogError msg_invalid_file_path].
Proof.
  assert (H1 : openable Edge.named_only "" = false) by reflexivity.
  split; [exact H1|].
  exact (proj1 (@empty_name_reaches_the_stream_check spec_utils
                  Edge.named_only Samples.bm Samples.frame_fb
                  (mkCP CONFIG_MEM_FRAME_BASED) false) H1).
Defined.

(** The same frame-based call with an empty name and with a name: the first
    is ended by the stream check before any encoder, the second goes through
    the router. *)
Lemma empty_name_is_not_routed :
  call (@write_fabric_bitstream_to_text_file spec_utils Edge.named_only
          Samples.bm Samples.frame_fb (mkCP CONFIG_MEM_FRAME_BASED) "" false) =
  Aborted [LogError msg_empty_file_name; LogTimer 1 "";
           LogError msg_invalid_file_path] /\
  call (@write_fabric_bitstream_to_text_file spec_utils Edge.named_only
          Samples.bm Samples.frame_fb (mkCP CONFIG_MEM_FRAME_BASED)
          "fabric.bit" false) =
  Returned 0%Z (chars "101 1" ++ [LF; LF])
           [LogTimer 1 "fabric.bit"; LogTimerFinish 1 "fabric.bit"].
Proof. split; reflexivity. Qed.

(** The scan-chain sample written to two destinations. *)
Lemma deterministic_sample :
  @regions_aligned spec_utils Samples.bm Samples.chain_fb /\
  openable Samples.roomy "a.bit" = true /\
  openable Samples.roomy "b.bit" = true /\
  capacity Samples.roomy "a.bit" = capacity Samples.roomy "b.bit" /\
  exists status file messages1 messages2,
    call (@write_fabric_bitstream_to_text_file spec_utils Samples.roomy
            Samples.bm Samples.chain_fb (mkCP CONFIG_MEM_SCAN_CHAIN)
            "a.bit" true) = Returned status file messages1 /\
    call (@write_fabric_bitstream_to_text_file spec_utils Samples.roomy
            Samples.bm Samples.chain_fb (mkCP CONFIG_MEM_SCAN_CHAIN)
            "b.bit" true) = Returned status file messages2.
Proof.
  assert (H1 : @regions_aligned spec_utils Samples.bm Samples.chain_fb)
    by (split; [reflexivity | repeat constructor]).
  assert (H2 : openable Samples.roomy "a.bit" = true) by reflexivity.
  assert (H3 : openable Samples.roomy "b.bit" = true) by reflexivity.
  assert (H4 : capacity Samples.roomy "a.bit" = capacity Samples.roomy "b.bit")
    by reflexivity.
  split; [exact H1 | split; [exact H2 | split; [exact H3
    | split; [exact H4 |]]]].
  exact (@serializer_deterministic spec_utils Samples.roomy Samples.roomy
           Samples.bm Samples.chain_fb (mkCP CONFIG_MEM_SCAN_CHAIN)
           "a.bit" "b.bit" true H1 H2 H3 (or_introl H4)).
Defined.


(** * Further properties of the writer *)

(** ** The per-bit writer *)

Lemma emit_bad (t : text) (s : state) :
  good (fp s) = false -> emit t s = s.
Proof.
  intros Hbad. destruct s as [f lg]. unfold emit. cbn [fp log] in *.
  now rewrite put_text_bad.
Qed.

Lemma write_bit_raw (bm : BitstreamManager) (fb : FabricBitstream)
    (bit : FabricBitId) (kind : e_config_protocol_type) (s : state) :
  kind = CONFIG_MEM_STANDALONE \/ kind = CONFIG_MEM_SCAN_CHAIN ->
  good (fp s) = true ->
  write_fabric_config_bit_to_text_file bm fb bit kind s =
  Done 0%Z (emit [digit (bit_value bm (config_bit fb bit))] s).
Proof.
  intros Hk Hg. unfold write_fabric_config_bit_to_text_file, bind,
    valid_file_stream. rewrite Hg. now destruct Hk as [-> | ->].
Qed.

(** X1. On a valid stream with room for the line, the per-bit writer puts
    down BL address, space, WL address, space, value digit, newline for the
    memory-bank type and address, space, value digit, newline for the
    frame-based type, and returns 0. *)
Theorem per_bit_line_formats (bm : BitstreamManager) (fb : FabricBitstream)
    (bit : FabricBitId) (s : state) :
  good (fp s) = true ->
  length (bit_bl_address fb bit) + length (bit_wl_address fb bit) + 4
    <= room (fp s) ->
  length (bit_address fb bit) + 3 <= room (fp s) ->
  (exists s',
     write_fabric_config_bit_to_text_file bm fb bit CONFIG_MEM_MEMORY_BANK s =
       Done 0%Z s' /\
     written (fp s') =
       written (fp s) ++
       bit_bl_address fb bit ++ [SP] ++ bit_wl_address fb bit ++ [SP] ++
       [digit (bit_value bm (config_bit fb bit)); LF] /\
     log s' = log s) /\
  (exists s',
     write_fabric_config_bit_to_text_file bm fb bit CONFIG_MEM_FRAME_BASED s =
       Done 0%Z s' /\
     written (fp s') =
       written (fp s) ++
       bit_address fb bit ++ [SP] ++
       [digit (bit_value bm (config_bit fb bit)); LF] /\
     log s' = log s).
Proof.
  intros Hg Hbank Hframe.
  unfold write_fabric_config_bit_to_text_file, valid_file_stream,
    write_space_to_file.
  split; unfold bind at 1; rewrite Hg; cbn [negb repeat].
  - assert (Hy : yields
        (for_each (bit_bl_address fb bit) (fun c => out [c]) ;;
         out [SP] ;;
         for_each (bit_wl_address fb bit) (fun c => out [c]) ;;
         out [SP] ;;
         out [digit (bit_value bm (config_bit fb bit))] ;;
         out [LF] ;; ret 0%Z)
        (bit_bl_address fb bit ++ [SP] ++ bit_wl_address fb bit ++ [SP] ++
         [digit (bit_value bm (config_bit fb bit)); LF]) 0%Z).
    { intros s0.
      assert (Hy' : exists t, yields
        (for_each (bit_bl_address fb bit) (fun c => out [c]) ;;
         out [SP] ;;
         for_each (bit_wl_address fb bit) (fun c => out [c]) ;;
         out [SP] ;;
         out [digit (bit_value bm (config_bit fb bit))] ;;
         out [LF] ;; ret 0%Z) t 0%Z /\
         t = bit_bl_address fb bit ++ [SP] ++ bit_wl_address fb bit ++ [SP] ++
             [digit (bit_value bm (config_bit fb bit)); LF]).
      { eexists. split; [eauto 12 with emits | reflexivity]. }
      destruct Hy' as (t & Hy' & ->). apply Hy'. }
    rewrite Hy. eexists. split; [reflexivity|].
    destruct (emit_fits
      (bit_bl_address fb bit ++ [SP] ++ bit_wl_address fb bit ++ [SP] ++
       [digit (bit_value bm (config_bit fb bit)); LF]) s Hg)
      as (_ & _ & Hw & Hl); [| now split].
    rewrite !length_app. cbn [length]. lia.
  - assert (Hy : exists t, yields
        (for_each (bit_address fb bit) (fun c => out [c]) ;;
         out [SP] ;;
         out [digit (bit_value bm (config_bit fb bit))] ;;
         out [LF] ;; ret 0%Z) t 0%Z /\
         t = bit_address fb bit ++ [SP] ++
             [digit (bit_value bm (config_bit fb bit)); LF]).
    { eexists. split; [eauto 12 with emits | reflexivity]. }
    destruct Hy as (t & Hy & ->).
    rewrite Hy. eexists. split; [reflexivity|].
    destruct (emit_fits
      (bit_address fb bit ++ [SP] ++
       [digit (bit_value bm (config_bit fb bit)); LF]) s Hg)
      as (_ & _ & Hw & Hl); [| now split].
    rewrite !length_app. cbn [length]. lia.
Qed.

(** ** The flatten encoder on a stream that may fail *)

Lemma flatten_loop_any (bm : BitstreamManager) (fb : FabricBitstream)
    (cp : ConfigProtocol) (todo : list FabricBitId) :
  type cp = CONFIG_MEM_STANDALONE \/ type cp = CONFIG_MEM_SCAN_CHAIN ->
  forall status s,
    flatten_loop bm fb cp todo status s =
    Done (match todo with
          | [] => status
          | _ :: _ =>
              if good (fp s)
              then if length todo <=? S (room (fp s)) then 0%Z else 1%Z
              else 1%Z
          end)
         (emit (map (fun bit => digit (bit_value bm (config_bit fb bit)))
                    todo) s).
Proof.
  intros Hty.
  induction todo as [|bit todo IH]; intros status s; cbn [flatten_loop map].
  - unfold ret. now rewrite emit_nil.
  - unfold bind. destruct (good (fp s)) eqn:Hg.
    + rewrite write_bit_raw by assumption. cbn [Z.eqb].
      rewrite IH.
      change (digit (bit_value bm (config_bit fb bit))
              :: map (fun b => digit (bit_value bm (config_bit fb b))) todo)
        with ([digit (bit_value bm (config_bit fb bit))] ++
              map (fun b => digit (bit_value bm (config_bit fb b))) todo).
      rewrite emit_app. f_equal.
      destruct s as [[g r w] lg]. cbn [fp good] in Hg. subst g.
      destruct todo as [|bit' todo]; [reflexivity|].
      destruct r as [|r]; reflexivity.
    + rewrite write_bit_bad by assumption. cbn [Z.eqb]. unfold ret.
      now rewrite emit_bad.
Qed.


(** ** The scan-chain encoder and the length of the regions *)

Lemma faults_bind_l {A B} (c : M A) (k : A -> M B) :
  faults c -> faults (bind c k).
Proof. intros Hc s. unfold bind. now rewrite Hc. Qed.

Lemma no_exit_bind {A B} (c : M A) (k : A -> M B) :
  no_exit c -> (forall a, no_exit (k a)) -> no_exit (bind c k).
Proof.
  intros Hc Hk s. unfold bind. specialize (Hc s).
  destruct (c s) as [a s1 | s1 |]; auto. apply Hk.
Qed.

Lemma no_exit_for_each {A} (l : list A) (body : A -> M unit) :
  (forall x, no_exit (body x)) -> no_exit (for_each l body).
Proof.
  intros Hb. induction l as [|x l IH]; cbn.
  - intros s. exact I.
  - apply no_exit_bind; auto.
Qed.

Lemma faults_for_each {A} (l : list A) (body : A -> M unit) :
  (forall x, no_exit (body x)) ->
  (exists x, In x l /\ faults (body x)) ->
  faults (for_each l body).
Proof.
  intros Hne. induction l as [|x l IH]; intros (x0 & Hin & Hf).
  - contradiction.
  - cbn [for_each]. intros s. unfold bind.
    destruct Hin as [-> | Hin].
    + now rewrite Hf.
    + specialize (Hne x s).
      destruct (body x s) as [[] s1 | s1 |]; [| contradiction | reflexivity].
      apply IH. now exists x0.
Qed.

Lemma no_exit_write_region_bit (ibit : nat) (region_bitstream : list bool) :
  no_exit (write_region_bit ibit region_bitstream).
Proof.
  intros s. unfold write_region_bit.
  now destruct (nth_error region_bitstream ibit).
Qed.

Lemma faults_write_region_bit (ibit : nat) (region_bitstream : list bool) :
  length region_bitstream <= ibit ->
  faults (write_region_bit ibit region_bitstream).
Proof.
  intros Hle s. unfold write_region_bit.
  now rewrite (proj2 (nth_error_None region_bitstream ibit) Hle).
Qed.

Section ChainBounds.
Context {U : FabricBitstreamUtils}.

Lemma write_config_chain_in_range (bm : BitstreamManager)
    (fb : FabricBitstream) (s : state) :
  Forall (fun r => find_fabric_regional_bitstream_max_size fb <= length r)
         (build_config_chain_fabric_bitstream_by_region bm fb) ->
  write_config_chain_fabric_bitstream_to_text_file bm fb s =
  Done 0%Z (emit (unlines (chain_lines bm fb)) s).
Proof.
  intros Hall.
  unfold write_config_chain_fabric_bitstream_to_text_file.
  apply emits_then_ret.
  unfold unlines, chain_lines. rewrite map_map.
  apply emits_for_each. intros ibit Hin.
  apply in_seq in Hin.
  apply emits_bind; [|apply emits_out].
  apply write_column_emits.
  eapply Forall_impl; [|exact Hall].
  cbn. intros r Hr. lia.
Qed.

Lemma write_config_chain_short_region (bm : BitstreamManager)
    (fb : FabricBitstream) (s : state) :
  Exists (fun r => length r < find_fabric_regional_bitstream_max_size fb)
         (build_config_chain_fabric_bitstream_by_region bm fb) ->
  write_config_chain_fabric_bitstream_to_text_file bm fb s = Fault.
Proof.
  intros Hex. apply Exists_exists in Hex. destruct Hex as (r & Hr & Hlt).
  unfold write_config_chain_fabric_bitstream_to_text_file.
  apply faults_bind_l. apply faults_for_each.
  - intros ibit. apply no_exit_bind.
    + apply no_exit_for_each. intros r'. apply no_exit_write_region_bit.
    + intros _ s0. exact I.
  - exists (length r). split.
    + apply in_seq. lia.
    + apply faults_bind_l. apply faults_for_each.
      * intros r'. apply no_exit_write_region_bit.
      * exists r. split; [exact Hr|].
        now apply faults_write_region_bit.
Qed.

(** X3. The scan-chain encoder indexes every regional bitstream up to the
    size the size helper reports, without a range check: it reads out of
    range (undefined behaviour) exactly when some regional bitstream is
    shorter than that size, and returns 0 otherwise. *)
Theorem chain_out_of_range_iff_short_region (bm : BitstreamManager)
    (fb : FabricBitstream) (s : state) :
  (write_config_chain_fabric_bitstream_to_text_file bm fb s = Fault <->
   Exists (fun r => length r < find_fabric_regional_bitstream_max_size fb)
          (build_config_chain_fabric_bitstream_by_region bm fb)) /\
  ((exists s',
      write_config_chain_fabric_bitstream_to_text_file bm fb s = Done 0%Z s')
   <->
   Forall (fun r => find_fabric_regional_bitstream_max_size fb <= length r)
          (build_config_chain_fabric_bitstream_by_region bm fb)).
Proof.
  destruct (Forall_Exists_dec
    (fun r => find_fabric_regional_bitstream_max_size fb <= length r)
    (fun r => le_dec (find_fabric_regional_bitstream_max_size fb) (length r))
    (build_config_chain_fabric_bitstream_by_region bm fb)) as [Hall | Hex].
  - pose proof (write_config_chain_in_range bm fb s Hall) as Hrun.
    split; split.
    + rewrite Hrun. discriminate.
    + intros Hex. exfalso.
      apply Exists_exists in Hex. destruct Hex as (r & Hr & Hlt).
      rewrite Forall_forall in Hall. specialize (Hall r Hr). lia.
    + intros _. exact Hall.
    + intros _. now eauto.
  - assert (Hex' : Exists
      (fun r => length r < find_fabric_regional_bitstream_max_size fb)
      (build_config_chain_fabric_bitstream_by_region bm fb)).
    { apply Exists_exists in Hex. destruct Hex as (r & Hr & Hn).
      apply Exists_exists. exists r. split; [exact Hr | lia]. }
    pose proof (write_config_chain_short_region bm fb s Hex') as Hrun.
    split; split.
    + intros _. exact Hex'.
    + intros _. exact Hrun.
    + rewrite Hrun. intros (s' & Hs'). discriminate.
    + intros Hall. exfalso.
      apply Exists_exists in Hex'. destruct Hex' as (r & Hr & Hlt).
      rewrite Forall_forall in Hall. specialize (Hall r Hr). lia.
Qed.

End ChainBounds.

(** ** The call on a destination that may cut the output short *)

Lemma Forall_firstn_of {A} (P : A -> Prop) (n : nat) (l : list A) :
  Forall P l -> Forall P (firstn n l).
Proof.
  intros H. rewrite <- (firstn_skipn n l) in H.
  now apply Forall_app in H.
Qed.

Section AnyCapacity.
Context {U : FabricBitstreamUtils}.

Lemma route_opened (bm : BitstreamManager) (fb : FabricBitstream)
    (cp : ConfigProtocol) (s : state) :
  regions_in_range bm fb ->
  good (fp s) = true ->
  route bm fb cp s =
  Done (status_with_room (type cp) (room (fp s)) (length (bits fb)))
       (mkState (put_text (structured_content bm fb (type cp)) (fp s))
                (log s ++ route_messages (type cp))).
Proof.
  intros Hin Hg. unfold route.
  destruct (type cp) eqn:Hty; cbn [structured_content status_with_room
    route_messages]; rewrite ?app_nil_r.
  - unfold write_flatten_fabric_bitstream_to_text_file.
    rewrite flatten_loop_any by auto. rewrite Hg.
    unfold flatten_text, emit. destruct (bits fb); reflexivity.
  - now rewrite write_config_chain_in_range by exact Hin.
  - now rewrite write_memory_bank_emits.
  - now rewrite write_frame_based_emits.
  - reflexivity.
Qed.

Lemma call_opened (fs : FileSystem) (bm : BitstreamManager)
    (fb : FabricBitstream) (cp : ConfigProtocol) (fname : string)
    (verbose : bool) :
  regions_in_range bm fb ->
  openable fs fname = true ->
  call (write_fabric_bitstream_to_text_file fs bm fb cp fname verbose) =
  Returned
    (status_with_room (type cp) (capacity fs fname) (length (bits fb)))
    (firstn (capacity fs fname) (structured_content bm fb (type cp) ++ [LF]))
    (opening_messages fb fname ++ route_messages (type cp) ++
     closing_messages fb fname verbose).
Proof.
  intros Hin Hop. rewrite call_unfold, Hop.
  assert (Hopen : fstream_open fs fname = mkStream true (capacity fs fname) [])
    by (unfold fstream_open; now rewrite Hop).
  rewrite route_opened; rewrite ?Hopen; cbn [fp log good room]; auto.
  rewrite <- put_text_app, put_text_good by reflexivity.
  cbn [written room app]. now rewrite <- app_assoc.
Qed.

(** X4. On a destination that opens, the file the call leaves is the
    structured content of the protocol kind followed by one line terminator,
    cut after as many characters as the destination accepts: nothing else is
    ever written, whatever the status. *)
Theorem file_is_cut_full_output (fs : FileSystem) (bm : BitstreamManager)
    (fb : FabricBitstream) (cp : ConfigProtocol) (fname : string)
    (verbose : bool) :
  regions_in_range bm fb ->
  openable fs fname = true ->
  file_of
    (call (write_fabric_bitstream_to_text_file fs bm fb cp fname verbose)) =
  Some (firstn (capacity fs fname)
               (structured_content bm fb (type cp) ++ [LF])).
Proof. intros Hin Hop. now rewrite call_opened. Qed.

(** X5. On a destination that opens the call returns 0 or 1.  It returns 1
    for an unrecognized kind, and 0 for the scan-chain, memory-bank and
    frame-based kinds even when the destination cut their output short.  A
    Standalone call returns 1 only if it has at least two bits more than the
    destination accepts. *)
Theorem status_of_an_opened_call (fs : FileSystem) (bm : BitstreamManager)
    (fb : FabricBitstream) (cp : ConfigProtocol) (fname : string)
    (verbose : bool) :
  regions_in_range bm fb ->
  openable fs fname = true ->
  (status_of
     (call (write_fabric_bitstream_to_text_file fs bm fb cp fname verbose)) =
   Some 0%Z \/
   status_of
     (call (write_fabric_bitstream_to_text_file fs bm fb cp fname verbose)) =
   Some 1%Z) /\
  (type cp = CONFIG_MEM_UNRECOGNIZED ->
   status_of
     (call (write_fabric_bitstream_to_text_file fs bm fb cp fname verbose)) =
   Some 1%Z) /\
  (type cp = CONFIG_MEM_SCAN_CHAIN \/ type cp = CONFIG_MEM_MEMORY_BANK \/
   type cp = CONFIG_MEM_FRAME_BASED ->
   status_of
     (call (write_fabric_bitstream_to_text_file fs bm fb cp fname verbose)) =
   Some 0%Z) /\
  (type cp = CONFIG_MEM_STANDALONE ->
   status_of
     (call (write_fabric_bitstream_to_text_file fs bm fb cp fname verbose)) =
   Some 1%Z ->
   capacity fs fname + 2 <= length (bits fb)).
Proof.
  intros Hin Hop. rewrite call_opened by assumption. cbn [status_of].
  unfold status_with_room.
  repeat apply conj.
  - destruct (type cp); auto.
    destruct (length (bits fb) <=? S (capacity fs fname)); auto.
  - now intros ->.
  - now intros [-> | [-> | ->]].
  - intros ->.
    destruct (Nat.leb_spec (length (bits fb)) (S (capacity fs fname)))
      as [Hle | Hlt]; [discriminate | intros _; lia].
Qed.

(** X6. The log of a call on a destination that opens is, in this order:
    the empty-name error if the name is empty, the start message of the
    timer, the invalid-protocol error if the kind is unrecognized, the bit
    count if verbose, and the finish message of the timer.  The encoders
    themselves log nothing. *)
Theorem messages_of_a_returning_call (fs : FileSystem)
    (bm : BitstreamManager) (fb : FabricBitstream) (cp : ConfigProtocol)
    (fname : string) (verbose : bool) :
  regions_in_range bm fb ->
  openable fs fname = true ->
  messages_of
    (call (write_fabric_bitstream_to_text_file fs bm fb cp fname verbose)) =
  (if string_empty fname then [LogError msg_empty_file_name] else []) ++
  [LogTimer (length (bits fb)) fname] ++
  (match type cp with
   | CONFIG_MEM_UNRECOGNIZED => [LogError msg_invalid_protocol]
   | _ => []
   end) ++
  (if verbose then [LogVerbose (length (bits fb)) fname] else []) ++
  [LogTimerFinish (length (bits fb)) fname].
Proof.
  intros Hin Hop. rewrite call_opened by assumption. cbn [messages_of].
  unfold opening_messages, closing_messages, route_messages, num_bits.
  rewrite <- !app_assoc. now destruct (type cp).
Qed.

(** X7. A Standalone or scan-chain file (and the file of an unrecognized
    kind) holds no character other than the digits 0 and 1 and the line
    terminator. *)
Theorem raw_formats_hold_digits_only (fs : FileSystem)
    (bm : BitstreamManager) (fb : FabricBitstream) (cp : ConfigProtocol)
    (fname : string) (verbose : bool) :
  regions_in_range bm fb ->
  openable fs fname = true ->
  type cp = CONFIG_MEM_STANDALONE \/ type cp = CONFIG_MEM_SCAN_CHAIN \/
  type cp = CONFIG_MEM_UNRECOGNIZED ->
  exists status file messages,
    call (write_fabric_bitstream_to_text_file fs bm fb cp fname verbose) =
      Returned status file messages /\
    Forall (fun c => c = "0"%char \/ c = "1"%char \/ c = LF) file.
Proof.
  intros Hin Hop Hty. rewrite call_opened by assumption.
  eexists _, _, _. split; [reflexivity|].
  apply Forall_firstn_of. apply Forall_app. split; [|constructor; [right; right; reflexivity | constructor]].
  destruct Hty as [-> | [-> | ->]]; cbn [structured_content].
  - unfold flatten_text. apply Forall_forall. intros c Hc.
    apply in_map_iff in Hc. destruct Hc as (bit & <- & _).
    destruct (bit_value bm (config_bit fb bit)); cbn; auto.
  - unfold unlines, chain_lines. apply Forall_concat.
    apply Forall_forall. intros l Hl.
    apply in_map_iff in Hl. destruct Hl as (col & <- & Hcol).
    apply in_map_iff in Hcol. destruct Hcol as (i & <- & _).
    apply Forall_app. split; [|constructor; [right; right; reflexivity | constructor]].
    unfold chain_column. apply Forall_forall. intros c Hc.
    apply in_map_iff in Hc. destruct Hc as (r & <- & _).
    destruct (nth i r false); cbn; auto.
  - constructor.
Qed.

End AnyCapacity.

(** * The further properties on sample inputs *)

(** One bit with BL 01, WL 10, frame address 101 and value 1. *)
Lemma per_bit_line_sample :
  good (fp Samples.fresh) = true /\
  length (bit_bl_address Edge.addressed_fb 1) +
    length (bit_wl_address Edge.addressed_fb 1) + 4
    <= room (fp Samples.fresh) /\
  length (bit_address Edge.addressed_fb 1) + 3 <= room (fp Samples.fresh) /\
  (exists s',
     write_fabric_config_bit_to_text_file Samples.bm Edge.addressed_fb 1
       CONFIG_MEM_MEMORY_BANK Samples.fresh = Done 0%Z s' /\
     written (fp s') = chars "01 10 1" ++ [LF]) /\
  (exists s',
     write_fabric_config_bit_to_text_file Samples.bm Edge.addressed_fb 1
       CONFIG_MEM_FRAME_BASED Samples.fresh = Done 0%Z s' /\
     written (fp s') = chars "101 1" ++ [LF]).
Proof.
  assert (H1 : good (fp Samples.fresh) = true) by reflexivity.
  assert (H2 : length (bit_bl_address Edge.addressed_fb 1) +
               length (bit_wl_address Edge.addressed_fb 1) + 4
               <= room (fp Samples.fresh)) by (vm_compute; lia).
  assert (H3 : length (bit_address Edge.addressed_fb 1) + 3
               <= room (fp Samples.fresh)) by (vm_compute; lia).
  split; [exact H1 | split; [exact H2 | split; [exact H3 |]]].
  destruct (per_bit_line_formats Samples.bm Edge.addressed_fb 1 Samples.fresh
              H1 H2 H3) as [(s1 & Hrun1 & Hw1 & _) (s2 & Hrun2 & Hw2 & _)].
  split.
  - exists s1. split; [exact Hrun1 | rewrite Hw1; reflexivity].
  - exists s2. split; [exact Hrun2 | rewrite Hw2; reflexivity].
Defined.


(** Regions [1,0,1] and [0,1] left unpadded: the second region is read out
    of range. *)
Lemma chain_out_of_range_sample :
  Exists (fun r => length r <
            @find_fabric_regional_bitstream_max_size Edge.unpadded_utils
              Samples.chain_fb)
         (@build_config_chain_fabric_bitstream_by_region Edge.unpadded_utils
            Samples.bm Samples.chain_fb) /\
  @write_config_chain_fabric_bitstream_to_text_file Edge.unpadded_utils
    Samples.bm Samples.chain_fb Samples.fresh = Fault.
Proof.
  assert (H1 : Exists (fun r => length r <
            @find_fabric_regional_bitstream_max_size Edge.unpadded_utils
              Samples.chain_fb)
         (@build_config_chain_fabric_bitstream_by_region Edge.unpadded_utils
            Samples.bm Samples.chain_fb)).
  { apply Exists_cons_tl. apply Exists_cons_hd. vm_compute. lia. }
  split; [exact H1|].
  apply (proj1 (@chain_out_of_range_iff_short_region Edge.unpadded_utils
                  Samples.bm Samples.chain_fb Samples.fresh)).
  exact H1.
Defined.

(** The scan-chain sample on a device that takes three characters: the file
    is the first line only. *)
Lemma cut_file_sample :
  @regions_in_range spec_utils Samples.bm Samples.chain_fb /\
  openable Edge.small "fabric.bit" = true /\
  file_of
    (call (@write_fabric_bitstream_to_text_file spec_utils Edge.small
             Samples.bm Samples.chain_fb (mkCP CONFIG_MEM_SCAN_CHAIN)
             "fabric.bit" false)) = Some (chars "10" ++ [LF]).
Proof.
  assert (H1 : @regions_in_range spec_utils Samples.bm Samples.chain_fb)
    by (unfold regions_in_range; cbn; repeat constructor).
  assert (H2 : openable Edge.small "fabric.bit" = true) by reflexivity.
  split; [exact H1 | split; [exact H2 |]].
  rewrite (@file_is_cut_full_output spec_utils Edge.small Samples.bm
             Samples.chain_fb (mkCP CONFIG_MEM_SCAN_CHAIN) "fabric.bit" false
             H1 H2).
  reflexivity.
Defined.

(** The same call returns 0 although the file was cut short. *)
Lemma cut_file_status_sample :
  @regions_in_range spec_utils Samples.bm Samples.chain_fb /\
  openable Edge.small "fabric.bit" = true /\
  status_of
    (call (@write_fabric_bitstream_to_text_file spec_utils Edge.small
             Samples.bm Samples.chain_fb (mkCP CONFIG_MEM_SCAN_CHAIN)
             "fabric.bit" false)) = Some 0%Z.
Proof.
  assert (H1 : @regions_in_range spec_utils Samples.bm Samples.chain_fb)
    by (unfold regions_in_range; cbn; repeat constructor).
  assert (H2 : openable Edge.small "fabric.bit" = true) by reflexivity.
  split; [exact H1 | split; [exact H2 |]].
  destruct (@status_of_an_opened_call spec_utils Edge.small Samples.bm
              Samples.chain_fb (mkCP CONFIG_MEM_SCAN_CHAIN) "fabric.bit"
              false H1 H2) as (_ & _ & Hline & _).
  apply Hline. left. reflexivity.
Defined.

(** An unrecognized kind on a named destination, verbose. *)
Lemma messages_sample :
  @regions_in_range spec_utils Samples.bm Samples.frame_fb /\
  openable Edge.named_only "fabric.bit" = true /\
  messages_of
    (call (@write_fabric_bitstream_to_text_file spec_utils Edge.named_only
             Samples.bm Samples.frame_fb (mkCP CONFIG_MEM_UNRECOGNIZED)
             "fabric.bit" true)) =
  [LogTimer 1 "fabric.bit"; LogError msg_invalid_protocol;
   LogVerbose 1 "fabric.bit"; LogTimerFinish 1 "fabric.bit"].
Proof.
  assert (H1 : @regions_in_range spec_utils Samples.bm Samples.frame_fb)
    by (unfold regions_in_range; cbn; constructor).
  assert (H2 : openable Edge.named_only "fabric.bit" = true) by reflexivity.
  split; [exact H1 | split; [exact H2 |]].
  rewrite (@messages_of_a_returning_call spec_utils Edge.named_only Samples.bm
             Samples.frame_fb (mkCP CONFIG_MEM_UNRECOGNIZED) "fabric.bit" true
             H1 H2).
  reflexivity.
Defined.

(** The scan-chain sample holds digits and line terminators only. *)
Lemma digits_only_sample :
  @regions_in_range spec_utils Samples.bm Samples.chain_fb /\
  openable Samples.roomy "fabric.bit" = true /\
  (type (mkCP CONFIG_MEM_SCAN_CHAIN) = CONFIG_MEM_STANDALONE \/
   type (mkCP CONFIG_MEM_SCAN_CHAIN) = CONFIG_MEM_SCAN_CHAIN \/
   type (mkCP CONFIG_MEM_SCAN_CHAIN) = CONFIG_MEM_UNRECOGNIZED) /\
  exists status file messages,
    call (@write_fabric_bitstream_to_text_file spec_utils Samples.roomy
            Samples.bm Samples.chain_fb (mkCP CONFIG_MEM_SCAN_CHAIN)
            "fabric.bit" false) = Returned status file messages /\
    Forall (fun c => c = "0"%char \/ c = "1"%char \/ c = LF) file.
Proof.
  assert (H1 : @regions_in_range spec_utils Samples.bm Samples.chain_fb)
    by (unfold regions_in_range; cbn; repeat constructor).
  assert (H2 : openable Samples.roomy "fabric.bit" = true) by reflexivity.
  assert (H3 : type (mkCP CONFIG_MEM_SCAN_CHAIN) = CONFIG_MEM_STANDALONE \/
               type (mkCP CONFIG_MEM_SCAN_CHAIN) = CONFIG_MEM_SCAN_CHAIN \/
               type (mkCP CONFIG_MEM_SCAN_CHAIN) = CONFIG_MEM_UNRECOGNIZED)
    by (right; left; reflexivity).
  split; [exact H1 | split; [exact H2 | split; [exact H3 |]]].
  exact (@raw_formats_hold_digits_only spec_utils Samples.roomy Samples.bm
           Samples.chain_fb (mkCP CONFIG_MEM_SCAN_CHAIN) "fabric.bit" false
           H1 H2 H3).
Defined.
